(** * weewx-rmi: the RMI data fetcher, driver and service (bin/user/rmi.py)

    A shallow embedding of [rmi.py] and the properties of its fetch
    operation: field remapping, cloud-cover bucketing, rain-rate derivation,
    error handling, session handling, service binding and the float
    coercion done by the callers.

    Modelling choices.
    - Python values are the inductive [value]; a Python [float] is an IEEE
      binary64 number, here Rocq's primitive [float].
    - A Python [dict] with string keys is an insertion-ordered association
      list ([pydict]): the loops of the source iterate in insertion order.
    - Objects that are shared and mutated in place (the field maps) live in
      a store [heap], addressed by [loc].
    - Effects (store, sessions, log, clock, event bindings, exceptions) are
      threaded by the state-and-exception monad [M].
    - Points in time are exact rationals (seconds since the epoch): the
      source only compares them.
    - The Python builtins [float(str)] and [datetime.strptime(..).timestamp()]
      are parameters of the development. *)

From Stdlib Require Import ZArith QArith String Ascii List Bool Lia.
From Stdlib Require Import PrimFloat SpecFloat FloatOps.
From stdpp Require Import base option list gmap strings.

Local Open Scope string_scope.
Local Open Scope Z_scope.

(** ** Python values *)

Inductive value : Type :=
  | VNone
  | VBool (b : bool)
  | VInt (z : Z)
  | VFloat (f : float)
  | VStr (s : string).

(** Exception classes that occur in the source or can reach it. The last two
    derive from [BaseException] only, so [except Exception] lets them pass. *)
Inductive exn : Type :=
  | IndexError
  | KeyError
  | TypeError
  | ValueError
  | OverflowError
  | AttributeError
  | ClientError
  | TimeoutError
  | IrmKmiApiError
  | CancelledError
  | KeyboardInterrupt.

Definition is_Exception (e : exn) : bool :=
  match e with
  | CancelledError | KeyboardInterrupt => false
  | _ => true
  end.

Definition is_ValueError (e : exn) : bool :=
  match e with
  | ValueError => true
  | _ => false
  end.

Inductive outcome (A : Type) : Type :=
  | Return (a : A)
  | Raise (e : exn).
Arguments Return {A} a.
Arguments Raise {A} e.

(** [bool(v)] *)
Definition truthy (v : value) : bool :=
  match v with
  | VNone => false
  | VBool b => b
  | VInt z => negb (z =? 0)
  | VFloat f => negb (PrimFloat.eqb f 0%float)
  | VStr s => negb (String.eqb s "")
  end.

(** [v == s] for a [str] literal [s]: only an equal [str] compares equal. *)
Definition py_eq_str (v : value) (s : string) : bool :=
  match v with
  | VStr t => String.eqb t s
  | _ => false
  end.

(** [v in [s1, ..., sn]] for a list of [str] literals *)
Definition py_in (v : value) (l : list string) : bool :=
  existsb (py_eq_str v) l.

(** [float(z)] for an [int]: round to nearest even, [OverflowError] when the
    result would not be finite. *)
Definition float_of_int (z : Z) : outcome float :=
  match binary_normalize prec emax z 0 false with
  | S754_infinity _ => Raise OverflowError
  | sf => Return (SF2Prim sf)
  end.

Fixpoint str_repeat (s : string) (n : nat) : string :=
  match n with
  | O => ""
  | S n' => s ++ str_repeat s n'
  end.

(** [v * 6] *)
Definition py_mul6 (v : value) : outcome value :=
  match v with
  | VNone => Raise TypeError
  | VBool b => Return (VInt (Z.b2z b * 6))
  | VInt z => Return (VInt (z * 6))
  | VFloat f => Return (VFloat (f * 6)%float)
  | VStr s => Return (VStr (str_repeat s 6))
  end.

(** [int(q)]: truncation towards zero *)
Definition py_int_of_time (q : Q) : Z :=
  Z.quot (Qnum q) (Z.pos (Qden q)).

(** ** Dictionaries *)

Abbreviation pydict V := (list (string * V)).

Fixpoint dict_get {V} (d : pydict V) (k : string) : option V :=
  match d with
  | [] => None
  | (k', v) :: d' => if String.eqb k' k then Some v else dict_get d' k
  end.

(** [d[k] = v]: an existing key keeps its place, a new key goes last. *)
Fixpoint dict_set {V} (d : pydict V) (k : string) (v : V) : pydict V :=
  match d with
  | [] => [(k, v)]
  | (k', v') :: d' =>
      if String.eqb k' k then (k', v) :: d' else (k', v') :: dict_set d' k v
  end.

(** [d.pop(k, default)] leaves [d] without [k]. *)
Fixpoint dict_del {V} (d : pydict V) (k : string) : pydict V :=
  match d with
  | [] => []
  | (k', v) :: d' =>
      if String.eqb k' k then dict_del d' k else (k', v) :: dict_del d' k
  end.

(** [d.update(e)] *)
Definition dict_update {V} (d e : pydict V) : pydict V :=
  fold_left (fun acc kv => dict_set acc (fst kv) (snd kv)) e d.

(** [d.setdefault(k, v)] *)
Definition dict_setdefault {V} (d : pydict V) (k : string) (v : V) : pydict V :=
  match dict_get d k with
  | Some _ => d
  | None => dict_set d k v
  end.

Definition dict_keys {V} (d : pydict V) : list string := map fst d.

(** The invariant of a Python dictionary: no key occurs twice. *)
Definition dict_wf {V} (d : pydict V) : Prop := NoDup (dict_keys d).

(** [d.get(k)] on a dictionary of values: [None] for an absent key. *)
Definition value_get (d : pydict value) (k : string) : value :=
  match dict_get d k with
  | Some v => v
  | None => VNone
  end.

(** ** The world: store, sessions, log, clock, event bindings *)

(** Addresses of dictionary objects *)
Abbreviation loc := nat.

(** A record of the module's logger: level, format string and the arguments
    formatted into it. *)
Inductive log_level : Type := INFO | ERROR.
Inductive log_arg : Type :=
  | ArgValue (v : value)
  | ArgExn (e : exn).
Record log_record : Type := Log {
  level : log_level;
  fmt : string;
  args : list log_arg
}.

Inductive session_state : Type := SessionOpen | SessionClosed.

Inductive event : Type := NEW_LOOP_PACKET | NEW_ARCHIVE_RECORD.
Inductive callback : Type := new_loop_packet | new_archive_record.

Record world : Type := mkWorld {
  heap : gmap loc (pydict string);
  sessions : list session_state;
  log : list log_record;
  clock : nat -> Q;
  ticks : nat;
  bindings : list (event * callback)
}.

Definition M (A : Type) : Type := world -> outcome A * world.

Definition ret {A} (a : A) : M A := fun w => (Return a, w).
Definition raise {A} (e : exn) : M A := fun w => (Raise e, w).
Definition bind {A B} (m : M A) (k : A -> M B) : M B :=
  fun w =>
    match m w with
    | (Return a, w') => k a w'
    | (Raise e, w') => (Raise e, w')
    end.
Definition lift {A} (o : outcome A) : M A := fun w => (o, w).

#[global] Instance M_ret : MRet M := @ret.
#[global] Instance M_bind : MBind M := fun A B k m => bind m k.

(** [try: body / except Exception: handler] *)
Definition try_except_Exception {A} (body : M A) (handler : exn -> M A) : M A :=
  fun w =>
    match body w with
    | (Raise e, w') => if is_Exception e then handler e w' else (Raise e, w')
    | r => r
    end.

(** [try: body / except ValueError as e: handler e] *)
Definition try_except_ValueError {A} (body : M A) (handler : exn -> M A) : M A :=
  fun w =>
    match body w with
    | (Raise e, w') => if is_ValueError e then handler e w' else (Raise e, w')
    | r => r
    end.

Definition run {A} (m : M A) (w : world) : outcome A := fst (m w).
Definition exec {A} (m : M A) (w : world) : world := snd (m w).

Definition log_emit (r : log_record) : M unit :=
  fun w => (Return tt,
            mkWorld (heap w) (sessions w) (log w ++ [r]) (clock w) (ticks w)
                    (bindings w)).

(** [time.time()]: the next reading of the wall clock *)
Definition time_time : M Q :=
  fun w => (Return (clock w (ticks w)),
            mkWorld (heap w) (sessions w) (log w) (clock w) (S (ticks w))
                    (bindings w)).

(** The world after [n] more readings of the clock *)
Definition advance (n : nat) (w : world) : world :=
  mkWorld (heap w) (sessions w) (log w) (clock w) (ticks w + n) (bindings w).

(** [aiohttp.ClientSession()]: a new open session; its index is its handle. *)
Definition ClientSession : M nat :=
  fun w => (Return (length (sessions w)),
            mkWorld (heap w) (sessions w ++ [SessionOpen]) (log w) (clock w)
                    (ticks w) (bindings w)).

Definition mark_closed (s : nat) : M unit :=
  fun w => (Return tt,
            mkWorld (heap w) (<[s := SessionClosed]> (sessions w)) (log w)
                    (clock w) (ticks w) (bindings w)).

(** A new dictionary object *)
Definition alloc (d : pydict string) : M loc :=
  fun w => let l := fresh (dom (heap w)) in
           (Return l,
            mkWorld (<[l := d]> (heap w)) (sessions w) (log w) (clock w)
                    (ticks w) (bindings w)).

(** The dictionary at an address (empty for an address that holds none) *)
Definition deref (h : gmap loc (pydict string)) (l : loc) : pydict string :=
  match h !! l with
  | Some d => d
  | None => []
  end.

Definition read_map (l : loc) : M (pydict string) :=
  fun w => (Return (deref (heap w) l), w).

Definition write_map (l : loc) (d : pydict string) : M unit :=
  fun w => (Return tt,
            mkWorld (<[l := d]> (heap w)) (sessions w) (log w) (clock w)
                    (ticks w) (bindings w)).

(** [self.bind(event, callback)] of the host's service base class *)
Definition bind_event (ev : event) (cb : callback) : M unit :=
  fun w => (Return tt,
            mkWorld (heap w) (sessions w) (log w) (clock w) (ticks w)
                    (bindings w ++ [(ev, cb)])).

(** ** The upstream weather service, as one fetch sees it

    [refresh] is what [await client.refresh_forecasts_coord(..)] does for a
    coordinate, [close] what [await session.close()] does; the other two are
    the data the client hands out after a refresh. *)
Record upstream : Type := mkUpstream {
  refresh : float -> float -> outcome unit;
  close : outcome unit;
  current_weather : pydict value;
  radar_forecast : list (pydict value)
}.

(** Configuration values: a scalar, or a sub-section (a dictionary object). *)
Inductive cfg_value : Type :=
  | CV (v : value)
  | CMap (l : loc).

(** [d.get(k)] on a configuration dictionary *)
Definition cfg_get (d : pydict cfg_value) (k : string) : cfg_value :=
  match dict_get d k with
  | Some c => c
  | None => CV VNone
  end.

(** [d.get(k, dflt)] *)
Definition cfg_get_default (d : pydict cfg_value) (k : string) (dflt : cfg_value)
  : cfg_value :=
  match dict_get d k with
  | Some c => c
  | None => dflt
  end.

Definition DRIVER_NAME : string := "RMI".

(** [weewx.METRIC] of the host *)
Definition METRIC : Z := 16.

Record RMIDataFetcher : Type := mkFetcher {
  poll_interval : float;
  latitude : float;
  longitude : float;
  _obs_map : loc
}.

(** The class attribute [RMIDataFetcher.DEFAULT_FIELD_MAP]: one dictionary
    object, created when the class body runs. *)
Definition DEFAULT_FIELD_MAP : pydict string :=
  [ ("barometer", "pressure");
    ("outTemp", "temperature");
    ("windSpeed", "wind_speed");
    ("windGust", "wind_speed_gust");
    ("windDir", "wind_bearing");
    ("cloudcover", "condition") ].

Definition DEFAULT_FIELD_MAP_loc : loc := 0%nat.

(** The world once the module is imported. *)
Definition initial_world (clk : nat -> Q) : world :=
  mkWorld {[ DEFAULT_FIELD_MAP_loc := DEFAULT_FIELD_MAP ]} [] [] clk 0 [].

(** [RMIDataFetcher.get_cloud_cover] *)
Definition get_cloud_cover (condition : value) : Z :=
  if py_in condition ["sunny"; "clear-night"] then 0
  else if py_in condition ["cloudy"] then 50
  else 100.

(** [RMIDataFetcher.default_field_map]: the class dictionary itself *)
Definition default_field_map : M cfg_value :=
  mret (CMap DEFAULT_FIELD_MAP_loc).

(** [obs_map.update(obs_map_ext)], answering the object that was updated.
    Only a dictionary has [update]; its argument is a dictionary, or an
    iterable of pairs: the empty string is one, no other scalar is. *)
Definition update_method (obs_map obs_map_ext : cfg_value) : M loc :=
  match obs_map with
  | CV _ => raise AttributeError
  | CMap l =>
      match obs_map_ext with
      | CMap l' =>
          d ← read_map l;
          e ← read_map l';
          write_map l (dict_update d e);;
          mret l
      | CV (VStr s) => if String.eqb s "" then mret l else raise ValueError
      | CV _ => raise TypeError
      end
  end.

Section Fetcher.

(** [float(s)] for a [str]: [None] is [ValueError]. *)
Variable float_of_string : string -> option float.

(** [datetime.strptime(s, "%Y-%m-%dT%H:%M:%S%z").timestamp()]: [None] is
    [ValueError]. *)
Variable strptime_timestamp : string -> option Q.

(** [float(v)] *)
Definition py_float (v : value) : outcome float :=
  match v with
  | VNone => Raise TypeError
  | VBool b => Return (if b then 1%float else 0%float)
  | VInt z => float_of_int z
  | VFloat f => Return f
  | VStr s =>
      match float_of_string s with
      | Some f => Return f
      | None => Raise ValueError
      end
  end.

Definition cfg_float (c : cfg_value) : outcome float :=
  match c with
  | CV v => py_float v
  | CMap _ => Raise TypeError
  end.

(** [_get_as_float] *)
Definition _get_as_float (data : pydict value) (key : string) : M value :=
  let v := VNone in
  match dict_get data key with
  | Some x =>
      if truthy x then
        try_except_ValueError
          (f ← lift (py_float x); mret (VFloat f))
          (fun e =>
             log_emit (Log ERROR "cannot read value for '%s': %s"
                           [ArgValue x; ArgExn e]);;
             mret v)
      else mret v
  | None => mret v
  end.

(** What [_get_as_float] answers, as a function of the value alone: [None]
    for a falsy value, the float for a truthy one, [None] again when the
    conversion raises [ValueError]; any other exception leaves the call. *)
Definition coerced (x : value) : outcome value :=
  if truthy x then
    match py_float x with
    | Return f => Return (VFloat f)
    | Raise e => if is_ValueError e then Return VNone else Raise e
    end
  else Return VNone.

(** [RMIDataFetcher.__init__(self, **stn_dict)]. The keyword dictionary is
    the constructor's own; the dictionary objects it holds are shared with
    the caller. *)
Definition RMIDataFetcher_init (stn_dict : pydict cfg_value) : M RMIDataFetcher :=
  poll ← lift (cfg_float (cfg_get_default stn_dict "poll_interval" (CV (VInt 60))));
  lat ← lift (cfg_float (cfg_get stn_dict "latitude"));
  lon ← lift (cfg_float (cfg_get stn_dict "longitude"));
  let obs_map := cfg_get_default stn_dict "field_map" (CV VNone) in
  let stn_dict := dict_del stn_dict "field_map" in
  empty ← alloc [];
  let obs_map_ext := cfg_get_default stn_dict "field_map_extensions" (CMap empty) in
  obs_map ← match obs_map with
            | CV VNone => default_field_map
            | _ => mret obs_map
            end;
  l ← update_method obs_map obs_map_ext;
  log_emit (Log INFO "Polling interval is %s" [ArgValue (VFloat poll)]);;
  log_emit (Log INFO "Latitude is %s" [ArgValue (VFloat lat)]);;
  log_emit (Log INFO "Longitude is %s" [ArgValue (VFloat lon)]);;
  mret (mkFetcher poll lat lon l).

(** [packet[weewx_field] = ...] for every item of the field map
    (lines 104-109 of [get_weather_packet]) *)
Definition map_fields (obs_map : pydict string) (weather : pydict value)
  : pydict value :=
  fold_left
    (fun packet item =>
       let weewx_field := fst item in
       let rmi_field := snd item in
       if String.eqb rmi_field "condition"
       then dict_set packet weewx_field
                     (VInt (get_cloud_cover (value_get weather rmi_field)))
       else dict_set packet weewx_field (value_get weather rmi_field))
    obs_map [].

(** The timestamp of a forecast entry *)
Definition forecast_timestamp (forecast : pydict value) : outcome Q :=
  match value_get forecast "datetime" with
  | VStr s =>
      match strptime_timestamp s with
      | Some t => Return t
      | None => Raise ValueError
      end
  | _ => Raise TypeError
  end.

(** [dt_timestamp > now] *)
Definition Qgtb (dt_timestamp now : Q) : bool := negb (Qle_bool dt_timestamp now).

(** The loop over the forecasts (lines 112-119), [prev] as the source has it *)
Fixpoint scan_forecasts (forecasts : list (pydict value)) (prev : pydict value)
    (packet : pydict value) : M (pydict value) :=
  match forecasts with
  | [] => mret packet
  | forecast :: rest =>
      dt_timestamp ← lift (forecast_timestamp forecast);
      now ← time_time;
      if Qgtb dt_timestamp now then
        rate ← lift (py_mul6 (value_get prev "native_precipitation"));
        mret (dict_set packet "rainRate" rate)
      else scan_forecasts rest forecast packet
  end.

(** A forecast entry whose timestamp is at or before [now], and one whose
    timestamp is strictly after it *)
Definition in_past (now : Q) (forecast : pydict value) : Prop :=
  exists t, forecast_timestamp forecast = Return t /\ (t <= now)%Q.

Definition in_future (now : Q) (forecast : pydict value) : Prop :=
  exists t, forecast_timestamp forecast = Return t /\ (now < t)%Q.

(** Every entry of [l] is in the past when the loop reaches it, the loop
    reading the clock [clk] once per entry, from its [n]-th reading on. *)
Definition all_past (clk : nat -> Q) (n : nat) (l : list (pydict value)) : Prop :=
  forall (i : nat) (forecast : pydict value),
    l !! i = Some forecast -> in_past (clk (n + i)%nat) forecast.

(** [forecasts[0]] *)
Definition first_forecast (forecasts : list (pydict value)) : outcome (pydict value) :=
  match forecasts with
  | [] => Raise IndexError
  | p :: _ => Return p
  end.

(** [await session.close()] *)
Definition session_close (api : upstream) (session : nat) : M unit :=
  lift (close api);; mark_closed session.

(** [RMIDataFetcher.get_weather_packet] *)
Definition get_weather_packet (api : upstream) (self : RMIDataFetcher)
  : M (pydict value) :=
  session ← ClientSession;
  connected ← try_except_Exception
    (lift (refresh api (latitude self) (longitude self));;
     session_close api session;;
     mret true)
    (fun _ =>
       log_emit (Log ERROR "Error connecting to RMI api" []);;
       mret false);
  if connected : bool then
    let weather := current_weather api in
    obs_map ← read_map (_obs_map self);
    let packet := map_fields obs_map weather in
    let forecasts := radar_forecast api in
    prev ← lift (first_forecast forecasts);
    scan_forecasts forecasts prev packet
  else mret [].

(** ** The driver *)

Record Engine : Type := mkEngine {
  latitude_f : value;
  longitude_f : value
}.

Record RMIDriver : Type := mkDriver {
  driver_fetcher : RMIDataFetcher
}.

(** The two [setdefault] calls that the driver and the service both make:
    the station's own location, unless the section gives one. *)
Definition with_station_location (engine : Engine) (stn_dict : pydict cfg_value)
  : pydict cfg_value :=
  let stn_dict := dict_setdefault stn_dict "latitude" (CV (latitude_f engine)) in
  dict_setdefault stn_dict "longitude" (CV (longitude_f engine)).

(** [RMIDriver.__init__] *)
Definition RMIDriver_init (engine : Engine) (stn_dict : pydict cfg_value)
  : M RMIDriver :=
  let stn_dict := with_station_location engine stn_dict in
  fetcher ← RMIDataFetcher_init stn_dict;
  mret (mkDriver fetcher).

(** [for vname in data: _packet[vname] = _get_as_float(data, vname)] *)
Fixpoint coerce_fields (data : pydict value) (vnames : list string)
    (_packet : pydict value) : M (pydict value) :=
  match vnames with
  | [] => mret _packet
  | vname :: rest =>
      x ← _get_as_float data vname;
      coerce_fields data rest (dict_set _packet vname x)
  end.

(** One turn of the loop of [RMIDriver.genLoopPackets], up to its [yield] *)
Definition genLoopPackets_step (api : upstream) (self : RMIDriver)
  : M (pydict value) :=
  data ← try_except_Exception
    (get_weather_packet api (driver_fetcher self))
    (fun e =>
       log_emit (Log ERROR "read failed: %s" [ArgExn e]);;
       mret []);
  now ← time_time;
  let _packet := [("dateTime", VInt (py_int_of_time now)); ("usUnits", VInt METRIC)] in
  coerce_fields data (dict_keys data) _packet.

(** ** The service *)

Record RMIService : Type := mkService {
  service_fetcher : RMIDataFetcher;
  binding : cfg_value;
  enable : cfg_value
}.

(** [bool(c)] of a configuration value; a section is true when not empty. *)
Definition cfg_truthy (c : cfg_value) : M bool :=
  match c with
  | CV v => mret (truthy v)
  | CMap l => d ← read_map l; mret (negb (Nat.eqb (length d) 0))
  end.

Definition cfg_eq_str (c : cfg_value) (s : string) : bool :=
  match c with
  | CV v => py_eq_str v s
  | CMap _ => false
  end.

(** [RMIService.__init__]. [config_dict] is the host's configuration; the
    section [config_dict[DRIVER_NAME]] is read and given its defaults. *)
Definition RMIService_init (engine : Engine)
    (config_dict : pydict (pydict cfg_value)) : M RMIService :=
  match dict_get config_dict DRIVER_NAME with
  | None => raise KeyError
  | Some section =>
      let section := with_station_location engine section in
      fetcher ← RMIDataFetcher_init section;
      let binding := cfg_get_default section "binding" (CV (VStr "loop")) in
      let enable := cfg_get_default section "enable" (CV (VBool true)) in
      let self := mkService fetcher binding enable in
      enabled ← cfg_truthy enable;
      if negb enabled then
        log_emit (Log INFO "RMI service not enabled, exiting." []);;
        mret self
      else if cfg_eq_str binding "loop" then
        bind_event NEW_LOOP_PACKET new_loop_packet;;
        mret self
      else if cfg_eq_str binding "archive" then
        bind_event NEW_ARCHIVE_RECORD new_archive_record;;
        mret self
      else raise ValueError
  end.

End Fetcher.

(** The world a fetch leaves when the refresh went through: its session is
    there, closed. *)
Definition connected (w : world) : world :=
  mkWorld (heap w) (sessions w ++ [SessionClosed]) (log w) (clock w) (ticks w)
          (bindings w).

(** The world a fetch leaves when the refresh, or closing the session,
    raised: the session is there, still open, and the error is logged. *)
Definition disconnected (w : world) : world :=
  mkWorld (heap w) (sessions w ++ [SessionOpen])
          (log w ++ [Log ERROR "Error connecting to RMI api" []])
          (clock w) (ticks w) (bindings w).

(** The field map a fetcher reads in a world *)
Definition field_map_of (self : RMIDataFetcher) (w : world) : pydict string :=
  deref (heap w) (_obs_map self).

(** The three records that a constructed fetcher logs *)
Definition construction_log (self : RMIDataFetcher) : list log_record :=
  [ Log INFO "Polling interval is %s" [ArgValue (VFloat (poll_interval self))];
    Log INFO "Latitude is %s" [ArgValue (VFloat (latitude self))];
    Log INFO "Longitude is %s" [ArgValue (VFloat (longitude self))] ].

(** The keyword arguments give the three numbers of the fetcher. *)
Definition numbers_of (float_of_string : string -> option float)
    (stn_dict : pydict cfg_value) (poll lat lon : float) : Prop :=
  cfg_float float_of_string
    (cfg_get_default stn_dict "poll_interval" (CV (VInt 60))) = Return poll /\
  cfg_float float_of_string (cfg_get stn_dict "latitude") = Return lat /\
  cfg_float float_of_string (cfg_get stn_dict "longitude") = Return lon.

(** The keyword arguments extend the field map by [ext]: there is no
    [field_map_extensions] and [ext] is empty, or it is a dictionary object
    of the world that holds [ext]. *)
Definition extends_by (stn_dict : pydict cfg_value) (w : world)
    (ext : pydict string) : Prop :=
  (dict_get stn_dict "field_map_extensions" = None /\ ext = []) \/
  (exists lx, dict_get stn_dict "field_map_extensions" = Some (CMap lx) /\
              heap w !! lx = Some ext).

(** ** Instances of the builtins, to run the model on concrete inputs *)

Definition digit_of (c : ascii) : option Z :=
  let n := Z.of_nat (nat_of_ascii c) in
  if (48 <=? n) && (n <=? 57) then Some (n - 48) else None.

(** An unsigned decimal numeral *)
Fixpoint digits_value (acc : Z) (l : list ascii) : option Z :=
  match l with
  | [] => Some acc
  | c :: l' =>
      match digit_of c with
      | Some d => digits_value (10 * acc + d) l'
      | None => None
      end
  end.

Definition number_of (l : list ascii) : option Z :=
  match l with
  | [] => None
  | _ => digits_value 0 l
  end.

(** Days from 1970-01-01 to a date of the proleptic Gregorian calendar *)
Definition days_from_civil (y m d : Z) : Z :=
  let y' := if m <=? 2 then y - 1 else y in
  let era := y' / 400 in
  let yoe := y' - era * 400 in
  let doy := (153 * (if 2 <? m then m - 3 else m + 9) + 2) / 5 + d - 1 in
  let doe := yoe * 365 + yoe / 4 - yoe / 100 + doy in
  era * 146097 + doe - 719468.

(** Timestamps of the shape [YYYY-MM-DDTHH:MM:SS+HH:MM], as the service
    sends them *)
Definition iso_timestamp (s : string) : option Q :=
  match list_ascii_of_string s with
  | [y1; y2; y3; y4; d1; m1; m2; d2; a1; a2; t; h1; h2; c1; i1; i2; c2; s1; s2;
     sg; o1; o2; c3; p1; p2] =>
      if forallb (fun c => Ascii.eqb c "-") [d1; d2]
         && Ascii.eqb t "T"
         && forallb (fun c => Ascii.eqb c ":") [c1; c2; c3]
         && (Ascii.eqb sg "+" || Ascii.eqb sg "-")
      then
        y ← number_of [y1; y2; y3; y4];
        m ← number_of [m1; m2];
        d ← number_of [a1; a2];
        h ← number_of [h1; h2];
        i ← number_of [i1; i2];
        sec ← number_of [s1; s2];
        oh ← number_of [o1; o2];
        om ← number_of [p1; p2];
        if (1 <=? m) && (m <=? 12) && (1 <=? d) && (d <=? 31) && (h <? 24)
           && (i <? 60) && (sec <? 62) && (om <? 60)
        then
          let off := (oh * 3600 + om * 60) * (if Ascii.eqb sg "-" then -1 else 1) in
          Some (inject_Z (days_from_civil y m d * 86400 + h * 3600 + i * 60
                          + sec - off))
        else None
      else None
  | _ => None
  end.

(** The characters before and after the first dot *)
Fixpoint split_at_dot (l : list ascii) : list ascii * list ascii :=
  match l with
  | [] => ([], [])
  | c :: l' =>
      if Ascii.eqb c "." then ([], l')
      else let (ip, fp) := split_at_dot l' in (c :: ip, fp)
  end.

(** Plain decimals such as [21.5] or [-3]: the quotient of two integers that
    binary64 holds exactly is the correctly rounded value. *)
Definition decimal_float (s : string) : option float :=
  let l := list_ascii_of_string s in
  let (neg, l) := match l with
                  | c :: l' => if Ascii.eqb c "-" then (true, l') else (false, l)
                  | [] => (false, l)
                  end in
  let (ip, fp) := split_at_dot l in
  n ← number_of (ip ++ fp);
  if (n <? 2 ^ 53) && (Nat.leb (length fp) 22) then
    let q := (SF2Prim (binary_normalize prec emax n 0 false)
              / SF2Prim (binary_normalize prec emax (10 ^ Z.of_nat (length fp)) 0 false))%float in
    Some (if neg then (- q)%float else q)
  else None.

(** ** Sample data *)

(** An entry of the radar forecast *)
Definition forecast_point (datetime : string) (precipitation : float)
  : pydict value :=
  [("datetime", VStr datetime); ("native_precipitation", VFloat precipitation)].

(** A fetcher for Brussels that uses the default field map *)
Definition brussels : RMIDataFetcher :=
  mkFetcher 60%float 50.75%float 4.5%float DEFAULT_FIELD_MAP_loc.

Definition sample_weather : pydict value :=
  [ ("condition", VStr "cloudy");
    ("temperature", VFloat 21.5%float);
    ("wind_speed", VFloat 0%float);
    ("pressure", VInt 1013) ].

Definition sample_forecasts : list (pydict value) :=
  [ forecast_point "2025-01-01T12:00:00+01:00" 1%float;
    forecast_point "2025-01-01T12:10:00+01:00" 2%float;
    forecast_point "2025-01-01T12:20:00+01:00" 3%float ].

(** A clock that stands still at [now] *)
Definition frozen (now : Q) : nat -> Q := fun _ => now.

(** 2025-01-01 12:15:00 +01:00 *)
Definition quarter_past_noon : Q := inject_Z 1735730100.
(** 2025-01-01 13:00:00 +01:00 *)
Definition one_o_clock : Q := inject_Z 1735732800.

(** The host's station, and configurations of the service: an unknown
    binding with the service switched off, the archive binding, and an
    unknown binding alone *)
Definition station : Engine := mkEngine (VFloat 50.75%float) (VFloat 4.5%float).

Definition config_disabled : pydict (pydict cfg_value) :=
  [ ("Station", [("station_type", CV (VStr "RMI"))]);
    ("RMI", [ ("poll_interval", CV (VStr "60"));
              ("binding", CV (VStr "hourly"));
              ("enable", CV (VBool false)) ]) ].

Definition config_archive : pydict (pydict cfg_value) :=
  [ ("RMI", [ ("binding", CV (VStr "archive")) ]) ].

Definition config_unknown : pydict (pydict cfg_value) :=
  [ ("RMI", [ ("binding", CV (VStr "hourly")) ]) ].

(** Keyword arguments of a fetcher with one more field, and the world in
    which the extension dictionary exists *)
Definition extension_loc : loc := 1%nat.

Definition extended_args : pydict cfg_value :=
  [ ("latitude", CV (VFloat 50.75%float));
    ("longitude", CV (VFloat 4.5%float));
    ("field_map_extensions", CMap extension_loc) ].

Definition plain_args : pydict cfg_value :=
  [ ("latitude", CV (VFloat 50.75%float));
    ("longitude", CV (VFloat 4.5%float)) ].

Definition extension : pydict string := [("UV", "uv_index")].

Definition world_with_extension : world :=
  mkWorld (<[extension_loc := extension]>
             {[ DEFAULT_FIELD_MAP_loc := DEFAULT_FIELD_MAP ]})
          [] [] (frozen one_o_clock) 0 [].

(** A field map of the caller's own that names one of its outputs
    "rainRate", the world that holds it, and a fetcher that uses it *)
Definition rain_named_map : pydict string :=
  [("outTemp", "temperature"); ("rainRate", "temperature")].

Definition world_with_rain_named_map (clk : nat -> Q) : world :=
  mkWorld (<[extension_loc := rain_named_map]>
             {[ DEFAULT_FIELD_MAP_loc := DEFAULT_FIELD_MAP ]})
          [] [] clk 0 [].

Definition brussels_with_own_map : RMIDataFetcher :=
  mkFetcher 60%float 50.75%float 4.5%float extension_loc.

(** A record holds, under [weewx_field], what the mapping of [rmi_field]
    stores for the payload [weather]: the cloud-cover bucket for the source
    "condition", else the value of the source field as it is, [None] when
    the payload lacks it. *)
Definition holds_mapped (weather packet : pydict value)
    (weewx_field rmi_field : string) : Prop :=
  (rmi_field = "condition" ->
     dict_get packet weewx_field
     = Some (VInt (get_cloud_cover (value_get weather "condition")))) /\
  (rmi_field <> "condition" ->
     forall v, dict_get weather rmi_field = Some v ->
       dict_get packet weewx_field = Some v) /\
  (rmi_field <> "condition" ->
     dict_get weather rmi_field = None ->
     dict_get packet weewx_field = Some VNone).

(** Current conditions with a pressure too large for a float *)
Definition huge_weather : pydict value :=
  [ ("temperature", VFloat 21.5%float); ("pressure", VInt (2 ^ 1024)) ].

Definition upstream_huge : upstream :=
  mkUpstream (fun _ _ => Return tt) (Return tt) huge_weather
             [ forecast_point "2025-01-01T12:00:00+01:00" 1%float ].

(** An upstream that answers, and one whose refresh fails *)
Definition upstream_ok (forecasts : list (pydict value)) : upstream :=
  mkUpstream (fun _ _ => Return tt) (Return tt) sample_weather forecasts.

Definition upstream_down : upstream :=
  mkUpstream (fun _ _ => Raise ClientError) (Return tt) [] [].


(** ** The rest of the module: the loader and the callbacks of the service *)

(** What a callback of the service works on: the world, what the process
    has printed, and the packet of the event it was called with, which it
    updates in place. *)
Record host : Type := mkHost {
  host_world : world;
  printed : list (pydict value);
  event_packet : pydict value
}.

Definition IO (A : Type) : Type := host -> outcome A * host.

Definition io_ret {A} (a : A) : IO A := fun h => (Return a, h).

Definition io_bind {A B} (m : IO A) (k : A -> IO B) : IO B :=
  fun h =>
    match m h with
    | (Return a, h') => k a h'
    | (Raise e, h') => (Raise e, h')
    end.

(** A computation on the world, run by a callback *)
Definition io_lift {A} (m : M A) : IO A :=
  fun h =>
    let (r, w') := m (host_world h) in
    (r, mkHost w' (printed h) (event_packet h)).

(** [print(data)] *)
Definition print (data : pydict value) : IO unit :=
  fun h => (Return tt,
            mkHost (host_world h) (printed h ++ [data]) (event_packet h)).

(** [event.packet[key]] *)
Definition event_packet_index (key : string) : IO value :=
  fun h =>
    match dict_get (event_packet h) key with
    | Some v => (Return v, h)
    | None => (Raise KeyError, h)
    end.

(** [event.packet[vname] = x] *)
Definition event_packet_set (vname : string) (x : value) : IO unit :=
  fun h => (Return tt,
            mkHost (host_world h) (printed h)
                   (dict_set (event_packet h) vname x)).

(** [RMIDriver.hardware_name] *)
Definition hardware_name (self : RMIDriver) : string := "RMI".

Section Callers.

Variable float_of_string : string -> option float.
Variable strptime_timestamp : string -> option Q.

(** [weewx.units.StdUnitConverters[us]], the host's converter to the unit
    system [us] ([None] is [KeyError]), as its method [convertDict], which
    may raise. *)
Variable StdUnitConverters :
  value -> option (pydict value -> outcome (pydict value)).

(** [loader(config_dict, engine)] of the driver *)
Definition loader (config_dict : pydict (pydict cfg_value)) (engine : Engine)
  : M RMIDriver :=
  match dict_get config_dict DRIVER_NAME with
  | None => raise KeyError
  | Some section => RMIDriver_init float_of_string engine section
  end.

(** [for vname in converted_data:
       event.packet[vname] = _get_as_float(converted_data, vname)] *)
Fixpoint update_event_packet (converted_data : pydict value)
    (vnames : list string) : IO unit :=
  match vnames with
  | [] => io_ret tt
  | vname :: rest =>
      io_bind (io_lift (_get_as_float float_of_string converted_data vname))
        (fun x =>
           io_bind (event_packet_set vname x)
             (fun _ => update_event_packet converted_data rest))
  end.

(** [RMIService.new_loop_packet] *)
Definition RMIService_new_loop_packet (api : upstream) (self : RMIService)
  : IO unit :=
  io_bind (io_lift (get_weather_packet strptime_timestamp api
                                       (service_fetcher self)))
    (fun data =>
       let data := dict_set data "usUnits" (VInt METRIC) in
       io_bind (print data)
         (fun _ =>
            io_bind (event_packet_index "usUnits")
              (fun us =>
                 match StdUnitConverters us with
                 | None => fun h => (Raise KeyError, h)
                 | Some convertDict =>
                     match convertDict data with
                     | Raise e => fun h => (Raise e, h)
                     | Return converted_data =>
                         update_event_packet converted_data
                                             (dict_keys converted_data)
                     end
                 end))).

(** [RMIService.new_archive_record] *)
Definition RMIService_new_archive_record (api : upstream) (self : RMIService)
  : IO unit :=
  io_bind (io_lift (get_weather_packet strptime_timestamp api
                                       (service_fetcher self)))
    (fun data =>
       let data := dict_set data "usUnits" (VInt METRIC) in
       io_bind (print data)
         (fun _ =>
            io_bind (event_packet_index "usUnits")
              (fun us =>
                 match StdUnitConverters us with
                 | None => fun h => (Raise KeyError, h)
                 | Some convertDict =>
                     match convertDict data with
                     | Raise e => fun h => (Raise e, h)
                     | Return converted_data =>
                         update_event_packet converted_data
                                             (dict_keys converted_data)
                     end
                 end))).

(** The host calls the method that the service bound to the event. *)
Definition dispatch (cb : callback) (api : upstream) (self : RMIService)
  : IO unit :=
  match cb with
  | new_loop_packet => RMIService_new_loop_packet api self
  | new_archive_record => RMIService_new_archive_record api self
  end.

End Callers.

(** ** The installer (install.py) *)

Module Install.

Record ExtensionInstaller : Type := mkInstaller {
  version : string;
  name : string;
  description : string;
  author : string;
  author_email : string;
  config : pydict (pydict cfg_value);
  files : list (string * list string)
}.

(** [RMIInstaller.__init__] *)
Definition RMIInstaller : ExtensionInstaller :=
  mkInstaller
    "0.2"
    "rmi"
    "A driver or service which fetches data from RMI (Belgium)"
    "Bram Oosterlynck"
    "bram.oosterlynck@gmail.com"
    [ ("Station", [("station_type", CV (VStr "RMI"))]);
      ("RMI", [ ("poll_interval", CV (VStr "60"));
                ("driver", CV (VStr "user.rmi")) ]) ]
    [ ("bin/user", ["bin/user/rmi.py"]) ].

(** [loader()] of the installer *)
Definition loader : ExtensionInstaller := RMIInstaller.

End Install.

(** An identity converter, as the host's converter to the unit system the
    data is already in, and the unit systems it knows *)
Definition sample_converters (us : value)
  : option (pydict value -> outcome (pydict value)) :=
  match us with
  | VInt 1 | VInt 16 | VInt 17 => Some (fun data => Return data)
  | _ => None
  end.

Definition sample_service : RMIService :=
  mkService brussels (CV (VStr "loop")) (CV (VBool true)).

(** The host with a loop packet in hand *)
Definition sample_host (clk : nat -> Q) : host :=
  mkHost (initial_world clk) []
         [("dateTime", VInt 1735730100); ("usUnits", VInt 16);
          ("outTemp", VFloat 3%float)].

(** The host with a packet that names no unit system, and with a packet
    that names one the host has no converter for *)
Definition host_without_units (clk : nat -> Q) : host :=
  mkHost (initial_world clk) [] [("dateTime", VInt 1735730100)].

Definition host_with_unknown_units (clk : nat -> Q) : host :=
  mkHost (initial_world clk) []
         [("dateTime", VInt 1735730100); ("usUnits", VInt 2)].

(** Keyword arguments with a field map of their own (the dictionary at
    [extension_loc]), with a scalar for a field map, with a string for the
    extensions, and without a latitude *)
Definition own_map_args : pydict cfg_value :=
  [ ("latitude", CV (VFloat 50.75%float));
    ("longitude", CV (VFloat 4.5%float));
    ("field_map", CMap extension_loc) ].

Definition scalar_map_args : pydict cfg_value :=
  [ ("latitude", CV (VFloat 50.75%float));
    ("longitude", CV (VFloat 4.5%float));
    ("field_map", CV (VStr "outTemp")) ].

Definition scalar_extension_args : pydict cfg_value :=
  [ ("latitude", CV (VFloat 50.75%float));
    ("longitude", CV (VFloat 4.5%float));
    ("field_map_extensions", CV (VStr "UV")) ].

Definition args_without_latitude : pydict cfg_value :=
  [ ("longitude", CV (VFloat 4.5%float)) ].

(** Configurations of the service: nothing but a polling interval, and
    [enable = false] as the configuration file gives it, a string *)
Definition config_plain : pydict (pydict cfg_value) :=
  [ ("RMI", [ ("poll_interval", CV (VStr "30")) ]) ].

Definition config_enable_false : pydict (pydict cfg_value) :=
  [ ("RMI", [ ("binding", CV (VStr "archive"));
              ("enable", CV (VStr "false")) ]) ].

(** An upstream whose refresh is cancelled *)
Definition upstream_cancelled : upstream :=
  mkUpstream (fun _ _ => Raise CancelledError) (Return tt) [] [].

(** Forecasts whose second entry has lost its timestamp, and forecasts whose
    first entry has lost its precipitation *)
Definition forecasts_without_time : list (pydict value) :=
  [ forecast_point "2025-01-01T12:00:00+01:00" 1%float;
    [("native_precipitation", VFloat 2%float)];
    forecast_point "2025-01-01T12:20:00+01:00" 3%float ].

Definition forecasts_without_value : list (pydict value) :=
  [ [("datetime", VStr "2025-01-01T12:10:00+01:00")];
    forecast_point "2025-01-01T12:20:00+01:00" 3%float ].

(** Forecasts whose second entry has a timestamp of another shape *)
Definition forecasts_odd_time : list (pydict value) :=
  [ forecast_point "2025-01-01T12:00:00+01:00" 1%float;
    forecast_point "2025-01-01 12:10" 2%float ].

(** The record of the sample weather, with the rain rate at 12:15 *)
Definition sample_record : pydict value :=
  [ ("barometer", VInt 1013); ("outTemp", VFloat 21.5%float);
    ("windSpeed", VFloat 0%float); ("windGust", VNone);
    ("windDir", VNone); ("cloudcover", VInt 50);
    ("rainRate", VFloat 12%float) ].

(** 2025-01-01 11:00:00 +01:00 *)
Definition eleven_o_clock : Q := inject_Z 1735725600.

(** * Properties *)

Local Open Scope list_scope.

(** ** Dictionaries *)

Lemma dict_get_set_same {V} (d : pydict V) k v :
  dict_get (dict_set d k v) k = Some v.
Proof.
  induction d as [|[k' v'] d IH]; simpl.
  - by rewrite String.eqb_refl.
  - destruct (String.eqb k' k) eqn:E; simpl; rewrite E; [done | apply IH].
Qed.

Lemma dict_get_set_other {V} (d : pydict V) k k' v :
  k <> k' -> dict_get (dict_set d k v) k' = dict_get d k'.
Proof.
  intros Hne. induction d as [|[k0 v0] d IH]; simpl.
  - apply String.eqb_neq in Hne. by rewrite Hne.
  - destruct (String.eqb k0 k) eqn:E; simpl.
    + apply String.eqb_eq in E as ->.
      apply String.eqb_neq in Hne. by rewrite Hne.
    + by rewrite IH.
Qed.

Lemma dict_get_None {V} (d : pydict V) k :
  dict_get d k = None <-> ~ In k (dict_keys d).
Proof.
  unfold dict_keys. induction d as [|[k' v'] d IH]; simpl; [tauto|].
  destruct (String.eqb k' k) eqn:E.
  - apply String.eqb_eq in E. split; [done | tauto].
  - apply String.eqb_neq in E. rewrite IH. tauto.
Qed.

Lemma dict_get_In {V} (d : pydict V) k v :
  dict_wf d -> In (k, v) d -> dict_get d k = Some v.
Proof.
  unfold dict_wf. induction d as [|[k' v'] d IH]; simpl; [tauto|].
  intros Hnd [Heq | Hin].
  - inversion Heq; subst. by rewrite String.eqb_refl.
  - apply NoDup_cons in Hnd as [Hk Hnd].
    destruct (String.eqb k' k) eqn:E; [|by apply IH].
    apply String.eqb_eq in E as ->. exfalso. apply Hk.
    apply list_elem_of_In. apply (in_map fst) in Hin. exact Hin.
Qed.

Lemma dict_keys_set {V} (d : pydict V) k v k' :
  In k' (dict_keys (dict_set d k v)) <-> k' = k \/ In k' (dict_keys d).
Proof.
  induction d as [|[k0 v0] d IH]; simpl; [intuition congruence|].
  destruct (String.eqb k0 k) eqn:E; simpl.
  - apply String.eqb_eq in E as ->. intuition congruence.
  - rewrite IH. intuition congruence.
Qed.

Lemma dict_set_wf {V} (d : pydict V) k v : dict_wf d -> dict_wf (dict_set d k v).
Proof.
  unfold dict_wf. induction d as [|[k0 v0] d IH]; simpl; intros Hnd.
  - apply NoDup_cons. split; [apply not_elem_of_nil | apply NoDup_nil_2].
  - apply NoDup_cons in Hnd as [Hk Hnd].
    destruct (String.eqb k0 k) eqn:E; simpl.
    + apply NoDup_cons. by split.
    + apply NoDup_cons. split; [|by apply IH].
      rewrite list_elem_of_In. fold (dict_keys (dict_set d k v)).
      rewrite dict_keys_set. intros [-> | Hin].
      * by rewrite String.eqb_refl in E.
      * apply Hk. by apply list_elem_of_In.
Qed.

(** [d.update(e)], key by key: the entries of [e] win. *)
Lemma dict_get_update {V} (d e : pydict V) k :
  dict_wf e ->
  dict_get (dict_update d e) k =
    match dict_get e k with
    | Some v => Some v
    | None => dict_get d k
    end.
Proof.
  unfold dict_update, dict_wf. revert d.
  induction e as [|[k' v'] e IH]; simpl; intros d Hnd; [done|].
  apply NoDup_cons in Hnd as [Hk Hnd]. rewrite IH by done.
  destruct (String.eqb k' k) eqn:E.
  - apply String.eqb_eq in E as ->.
    assert (dict_get e k = None) as ->.
    { apply dict_get_None. intros Hin. apply Hk. by apply list_elem_of_In. }
    apply dict_get_set_same.
  - apply String.eqb_neq in E. destruct (dict_get e k); [done|].
    by apply dict_get_set_other.
Qed.

(** ** Cloud-cover bucketing *)

(** C4: [get_cloud_cover] is a total function of the condition code. It
    answers 0 for "sunny" and "clear-night", 50 for "cloudy", and 100 for
    every other value: unknown codes, the empty string, and [None], which is
    what an absent code reads as. *)
Theorem get_cloud_cover_buckets :
  get_cloud_cover (VStr "sunny") = 0 /\
  get_cloud_cover (VStr "clear-night") = 0 /\
  get_cloud_cover (VStr "cloudy") = 50 /\
  (forall condition : value,
      condition <> VStr "sunny" ->
      condition <> VStr "clear-night" ->
      condition <> VStr "cloudy" ->
      get_cloud_cover condition = 100) /\
  get_cloud_cover (VStr "") = 100 /\
  get_cloud_cover VNone = 100 /\
  (forall weather : pydict value,
      dict_get weather "condition" = None ->
      get_cloud_cover (value_get weather "condition") = 100).
Proof.
  repeat split; try reflexivity.
  - intros condition Hs Hn Hc. unfold get_cloud_cover, py_in. simpl.
    destruct condition as [| b | z | f | s]; simpl; try reflexivity.
    destruct (String.eqb s "sunny") eqn:E1.
    { apply String.eqb_eq in E1. congruence. }
    destruct (String.eqb s "clear-night") eqn:E2.
    { apply String.eqb_eq in E2. congruence. }
    destruct (String.eqb s "cloudy") eqn:E3.
    { apply String.eqb_eq in E3. congruence. }
    reflexivity.
  - intros weather Habs. unfold value_get. rewrite Habs. reflexivity.
Qed.

Lemma get_cloud_cover_buckets_witness :
  get_cloud_cover (VStr "rainy") = 100 /\
  get_cloud_cover (value_get [("temperature", VFloat 3%float)] "condition") = 100.
Proof.
  destruct get_cloud_cover_buckets as (_ & _ & _ & Hother & _ & _ & Habsent).
  split.
  - apply Hother; discriminate.
  - apply Habsent. reflexivity.
Defined.

(** The bucket is always one of the three percentages. *)
Lemma get_cloud_cover_range condition :
  get_cloud_cover condition = 0 \/ get_cloud_cover condition = 50 \/
  get_cloud_cover condition = 100.
Proof.
  unfold get_cloud_cover.
  destruct (py_in condition _); [by left|].
  destruct (py_in condition _); [right; by left | right; by right].
Qed.

(** ** Field remapping *)

Section MapFields.

Variable weather : pydict value.

(** The value the loop stores for a source field *)
Let stored (rmi_field : string) : value :=
  if String.eqb rmi_field "condition"
  then VInt (get_cloud_cover (value_get weather rmi_field))
  else value_get weather rmi_field.

Let step (packet : pydict value) (item : string * string) : pydict value :=
  dict_set packet (fst item) (stored (snd item)).

Lemma map_fields_fold obs_map :
  map_fields obs_map weather = fold_left step obs_map [].
Proof.
  unfold map_fields. generalize (@nil (string * value)).
  induction obs_map as [|[k src] obs_map IH]; intros acc; simpl; [done|].
  rewrite IH. f_equal. unfold step, stored. simpl.
  by destruct (String.eqb src "condition").
Qed.

Lemma fold_step_other obs_map acc k :
  ~ In k (dict_keys obs_map) ->
  dict_get (fold_left step obs_map acc) k = dict_get acc k.
Proof.
  unfold dict_keys. revert acc.
  induction obs_map as [|[k' src] obs_map IH]; intros acc Hk; simpl; [done|].
  simpl in Hk. rewrite IH by tauto. unfold step. simpl.
  apply dict_get_set_other. tauto.
Qed.

Lemma fold_step_entry obs_map acc k src :
  dict_wf obs_map -> In (k, src) obs_map ->
  dict_get (fold_left step obs_map acc) k = Some (stored src).
Proof.
  unfold dict_wf, dict_keys. revert acc.
  induction obs_map as [|[k' src'] obs_map IH]; intros acc Hnd Hin; simpl;
    [destruct Hin|].
  simpl in Hnd. apply NoDup_cons in Hnd as [Hk Hnd].
  destruct Hin as [Heq | Hin].
  - inversion Heq; subst. rewrite fold_step_other.
    + unfold step. simpl. apply dict_get_set_same.
    + intros Hin. apply Hk. by apply list_elem_of_In.
  - by apply IH.
Qed.

Lemma fold_step_keys obs_map acc k :
  In k (dict_keys (fold_left step obs_map acc)) <->
  In k (dict_keys acc) \/ In k (dict_keys obs_map).
Proof.
  revert acc. induction obs_map as [|[k' src] obs_map IH]; intros acc.
  - simpl. tauto.
  - change (fold_left step ((k', src) :: obs_map) acc)
      with (fold_left step obs_map (dict_set acc k' (stored src))).
    rewrite IH, dict_keys_set. simpl. intuition congruence.
Qed.

Lemma map_fields_stored obs_map k src :
  dict_wf obs_map -> In (k, src) obs_map ->
  dict_get (map_fields obs_map weather) k = Some (stored src).
Proof. rewrite map_fields_fold. apply fold_step_entry. Qed.

Lemma map_fields_keys obs_map k :
  In k (dict_keys (map_fields obs_map weather)) <-> In k (dict_keys obs_map).
Proof. rewrite map_fields_fold, fold_step_keys. simpl. tauto. Qed.

End MapFields.

(** The mapping loop by itself: for every pair (output name, source name)
    of a field map, the record it builds holds, under the output name, the
    cloud-cover bucket of the condition code when the source name is
    "condition", and otherwise the value of the source field as it is, or
    [None] when the payload lacks that field. *)
Lemma map_fields_entry (obs_map : pydict string) (weather : pydict value)
    (weewx_field rmi_field : string) :
  dict_wf obs_map ->
  In (weewx_field, rmi_field) obs_map ->
  (rmi_field = "condition" ->
     dict_get (map_fields obs_map weather) weewx_field
     = Some (VInt (get_cloud_cover (value_get weather "condition")))) /\
  (rmi_field <> "condition" ->
     forall v, dict_get weather rmi_field = Some v ->
       dict_get (map_fields obs_map weather) weewx_field = Some v) /\
  (rmi_field <> "condition" ->
     dict_get weather rmi_field = None ->
     dict_get (map_fields obs_map weather) weewx_field = Some VNone).
Proof.
  intros Hwf Hin.
  rewrite (map_fields_stored weather obs_map _ _ Hwf Hin).
  repeat split.
  - intros ->. reflexivity.
  - intros Hne v Hv. apply String.eqb_neq in Hne. rewrite Hne.
    unfold value_get. by rewrite Hv.
  - intros Hne Hv. apply String.eqb_neq in Hne. rewrite Hne.
    unfold value_get. by rewrite Hv.
Qed.

Lemma DEFAULT_FIELD_MAP_wf : dict_wf DEFAULT_FIELD_MAP.
Proof. unfold dict_wf. by compute_done. Qed.

Lemma map_fields_entry_witness :
  dict_get (map_fields DEFAULT_FIELD_MAP sample_weather) "cloudcover"
    = Some (VInt 50) /\
  dict_get (map_fields DEFAULT_FIELD_MAP sample_weather) "outTemp"
    = Some (VFloat 21.5%float) /\
  dict_get (map_fields DEFAULT_FIELD_MAP sample_weather) "windGust"
    = Some VNone.
Proof.
  pose proof (map_fields_entry DEFAULT_FIELD_MAP sample_weather
                "cloudcover" "condition" DEFAULT_FIELD_MAP_wf
                ltac:(simpl; tauto)) as (Hcloud & _ & _).
  pose proof (map_fields_entry DEFAULT_FIELD_MAP sample_weather
                "outTemp" "temperature" DEFAULT_FIELD_MAP_wf
                ltac:(simpl; tauto)) as (_ & Htemp & _).
  pose proof (map_fields_entry DEFAULT_FIELD_MAP sample_weather
                "windGust" "wind_speed_gust" DEFAULT_FIELD_MAP_wf
                ltac:(simpl; tauto)) as (_ & _ & Hgust).
  split; [|split].
  - apply Hcloud. reflexivity.
  - apply Htemp; [discriminate | reflexivity].
  - apply Hgust; [discriminate | reflexivity].
Defined.

(** ** The fetch *)

Ltac unfold_monad :=
  unfold mbind, M_bind, mret, M_ret, bind, ret, raise, lift in *.

Lemma close_new_session (ss : list session_state) :
  <[length ss := SessionClosed]> (ss ++ [SessionOpen])%list
  = (ss ++ [SessionClosed])%list.
Proof.
  induction ss as [|s ss IH]; simpl; [done|]. by rewrite IH.
Qed.

Lemma Qgtb_past t now : (t <= now)%Q -> Qgtb t now = false.
Proof. intros H. unfold Qgtb. apply Qle_bool_iff in H. by rewrite H. Qed.

Lemma Qgtb_future t now : (now < t)%Q -> Qgtb t now = true.
Proof.
  intros H. unfold Qgtb. destruct (Qle_bool t now) eqn:E; [|done].
  apply Qle_bool_iff in E. exfalso. by apply (Qlt_not_le now t).
Qed.

Lemma last_cons {A} (l : list A) (x d : A) :
  List.last (x :: l) d = List.last l x.
Proof.
  revert x d. induction l as [|y l IH]; intros x d; [done|].
  change (List.last (x :: y :: l) d) with (List.last (y :: l) d).
  by rewrite !IH.
Qed.

Section Scan.

Variable strptime_timestamp : string -> option Q.

Abbreviation scan := (scan_forecasts strptime_timestamp).
Abbreviation past := (all_past strptime_timestamp).
Abbreviation future := (in_future strptime_timestamp).

Lemma all_past_cons clk n forecast l :
  past clk n (forecast :: l) ->
  in_past strptime_timestamp (clk n) forecast /\ past clk (S n) l.
Proof.
  intros H. split.
  - specialize (H 0%nat forecast eq_refl). by rewrite Nat.add_0_r in H.
  - intros i pt Hi. specialize (H (S i) pt Hi).
    by replace (S n + i)%nat with (n + S i)%nat by lia.
Qed.

Lemma advance_0 w : advance 0 w = w.
Proof. destruct w. unfold advance. simpl. by rewrite Nat.add_0_r. Qed.

(** A forecast window that lies in the past is scanned to its end and
    leaves the record as it is. *)
Lemma scan_forecasts_all_past l prev packet w :
  past (clock w) (ticks w) l ->
  scan l prev packet w = (Return packet, advance (length l) w).
Proof.
  revert prev w. induction l as [|forecast l IH]; intros prev w Hpast.
  - simpl. unfold_monad. by rewrite advance_0.
  - apply all_past_cons in Hpast as [(t & Ht & Hle) Hrest].
    simpl. unfold_monad. rewrite Ht. unfold time_time.
    rewrite (Qgtb_past _ _ Hle).
    rewrite IH by exact Hrest.
    unfold advance. simpl. do 2 f_equal. lia.
Qed.

(** At the first entry in the future the loop stops, and the rate is taken
    from the entry before it, or from the first entry when there is none. *)
Lemma scan_forecasts_first_future before fut after prev packet w :
  past (clock w) (ticks w) before ->
  future (clock w (ticks w + length before)%nat) fut ->
  scan (before ++ fut :: after) prev packet w =
    (match py_mul6 (value_get (List.last before prev) "native_precipitation") with
     | Return rate => Return (dict_set packet "rainRate" rate)
     | Raise e => Raise e
     end,
     advance (S (length before)) w).
Proof.
  revert prev w. induction before as [|forecast before IH]; intros prev w Hpast Hfut.
  - destruct Hfut as (t & Ht & Hlt). simpl in Hlt. rewrite Nat.add_0_r in Hlt.
    simpl. unfold_monad. rewrite Ht. unfold time_time.
    rewrite (Qgtb_future _ _ Hlt).
    unfold advance. simpl.
    replace (ticks w + 1)%nat with (S (ticks w)) by lia.
    by destruct (py_mul6 _).
  - apply all_past_cons in Hpast as [(t & Ht & Hle) Hrest].
    change ((forecast :: before) ++ fut :: after)
      with (forecast :: (before ++ fut :: after)).
    cbn [scan_forecasts]. unfold_monad. rewrite Ht. unfold time_time.
    rewrite (Qgtb_past _ _ Hle).
    rewrite (IH forecast).
    + rewrite (last_cons before forecast prev).
      unfold advance. cbn [heap sessions log clock ticks bindings length].
      do 2 f_equal. lia.
    + exact Hrest.
    + cbn [clock ticks]. simpl in Hfut.
      by replace (S (ticks w) + length before)%nat
        with (ticks w + S (length before))%nat by lia.
Qed.

End Scan.

Section Fetch.

Variable strptime_timestamp : string -> option Q.

Abbreviation fetch := (get_weather_packet strptime_timestamp).
Abbreviation scan := (scan_forecasts strptime_timestamp).

(** After a refresh that went through, the fetch is the field mapping
    followed by the scan of the forecasts. *)
Lemma fetch_connected api self w :
  refresh api (latitude self) (longitude self) = Return tt ->
  close api = Return tt ->
  fetch api self w =
    match first_forecast (radar_forecast api) with
    | Return prev =>
        scan (radar_forecast api) prev
             (map_fields (field_map_of self w) (current_weather api))
             (connected w)
    | Raise e => (Raise e, connected w)
    end.
Proof.
  intros Hrefresh Hclose.
  unfold get_weather_packet, try_except_Exception, session_close, ClientSession,
    mark_closed, read_map.
  unfold_monad. rewrite Hrefresh, Hclose.
  cbn [heap sessions log clock ticks bindings].
  rewrite close_new_session. fold (connected w). unfold field_map_of.
  by destruct (first_forecast (radar_forecast api)).
Qed.

(** When the refresh raises, or closing the session does, an [Exception]
    is caught and a [BaseException] goes through. *)
Lemma fetch_disconnected api self w e :
  refresh api (latitude self) (longitude self) = Raise e \/
  (refresh api (latitude self) (longitude self) = Return tt /\
   close api = Raise e) ->
  fetch api self w =
    if is_Exception e then (Return [], disconnected w)
    else (Raise e,
          mkWorld (heap w) (sessions w ++ [SessionOpen]) (log w) (clock w)
                  (ticks w) (bindings w)).
Proof.
  intros [Hrefresh | [Hrefresh Hclose]];
    unfold get_weather_packet, try_except_Exception, session_close,
      ClientSession, mark_closed, log_emit;
    unfold_monad; rewrite Hrefresh; [|rewrite Hclose];
    cbn [heap sessions log clock ticks bindings];
    by destruct (is_Exception e).
Qed.

(** The scan touches nothing but the clock. *)
Lemma scan_forecasts_world l prev packet w :
  exists n, snd (scan l prev packet w) = advance n w.
Proof.
  revert prev w. induction l as [|forecast l IH]; intros prev w.
  - exists 0%nat. simpl. unfold_monad. simpl. by rewrite advance_0.
  - simpl. unfold_monad.
    destruct (forecast_timestamp strptime_timestamp forecast) as [t|e].
    + unfold time_time. destruct (Qgtb t (clock w (ticks w))).
      * exists 1%nat. destruct (py_mul6 _); simpl; unfold advance; simpl;
          do 2 f_equal; lia.
      * destruct (IH forecast (mkWorld (heap w) (sessions w) (log w) (clock w)
                                 (S (ticks w)) (bindings w))) as [n Hn].
        exists (S n). rewrite Hn. unfold advance. simpl. f_equal. lia.
    + exists 0%nat. simpl. by rewrite advance_0.
Qed.

(** The scan answers the record it was given, or that record with a rain
    rate. *)
Lemma scan_forecasts_result l prev packet w result :
  fst (scan l prev packet w) = Return result ->
  result = packet \/ exists rate, result = dict_set packet "rainRate" rate.
Proof.
  revert prev w. induction l as [|forecast l IH]; intros prev w.
  - simpl. unfold_monad. simpl. intros [= <-]. by left.
  - simpl. unfold_monad.
    destruct (forecast_timestamp strptime_timestamp forecast) as [t|e];
      [|discriminate].
    unfold time_time. destruct (Qgtb t (clock w (ticks w))).
    + destruct (py_mul6 _) as [rate|e]; simpl; [|discriminate].
      intros [= <-]. right. by exists rate.
    + apply IH.
Qed.

(** On the way that closes the session, it stays closed to the end of the
    fetch, whatever the rest of the fetch does. *)
Lemma fetch_closes_session_when_connected api self w :
  refresh api (latitude self) (longitude self) = Return tt ->
  close api = Return tt ->
  sessions (exec (fetch api self) w) = sessions w ++ [SessionClosed].
Proof.
  intros Hrefresh Hclose. unfold exec.
  rewrite fetch_connected by done.
  destruct (first_forecast (radar_forecast api)) as [prev|e]; [|done].
  destruct (scan_forecasts_world (radar_forecast api) prev
              (map_fields (field_map_of self w) (current_weather api))
              (connected w)) as [n ->].
  reflexivity.
Qed.

(** On the way that catches the error, the session is never closed. *)
Lemma fetch_leaves_session_open_on_error api self w e :
  refresh api (latitude self) (longitude self) = Raise e ->
  sessions (exec (fetch api self) w) = sessions w ++ [SessionOpen].
Proof.
  intros Hrefresh. unfold exec.
  rewrite (fetch_disconnected api self w e) by (by left).
  by destruct (is_Exception e).
Qed.

(** With no forecast, [forecasts[0]] raises. *)
Lemma fetch_empty_forecast api self w :
  refresh api (latitude self) (longitude self) = Return tt ->
  close api = Return tt ->
  radar_forecast api = [] ->
  fetch api self w = (Raise IndexError, connected w).
Proof.
  intros Hrefresh Hclose Hempty.
  rewrite fetch_connected by done. by rewrite Hempty.
Qed.

(** Whatever record the fetch returns after a refresh that went through, it
    is the mapped record, but for the rain-rate key. *)
Lemma fetch_keeps_mapped_fields api self w packet k :
  refresh api (latitude self) (longitude self) = Return tt ->
  close api = Return tt ->
  run (fetch api self) w = Return packet ->
  k <> "rainRate" ->
  dict_get packet k
  = dict_get (map_fields (field_map_of self w) (current_weather api)) k.
Proof.
  intros Hrefresh Hclose Hrun Hk. unfold run in Hrun.
  rewrite fetch_connected in Hrun by done.
  destruct (first_forecast (radar_forecast api)) as [prev|e]; [|discriminate].
  apply scan_forecasts_result in Hrun as [-> | [rate ->]]; [done|].
  apply dict_get_set_other. congruence.
Qed.

(** C6: when the refresh of the upstream data, or the closing of the
    session, raises an exception of class [Exception] (every network and
    protocol failure is one), the fetch logs the error, returns the empty
    record, and raises nothing. *)
Theorem fetch_failure_returns_empty_record (api : upstream)
    (self : RMIDataFetcher) (w : world) (e : exn) :
  refresh api (latitude self) (longitude self) = Raise e \/
  (refresh api (latitude self) (longitude self) = Return tt /\
   close api = Raise e) ->
  is_Exception e = true ->
  run (fetch api self) w = Return [] /\
  log (exec (fetch api self) w)
    = log w ++ [Log ERROR "Error connecting to RMI api" []].
Proof.
  intros Hfail He. unfold run, exec.
  rewrite (fetch_disconnected api self w e Hfail), He. done.
Qed.

End Fetch.

Lemma fetch_failure_returns_empty_record_witness :
  run (get_weather_packet iso_timestamp upstream_down brussels)
      (initial_world (frozen one_o_clock)) = Return [] /\
  log (exec (get_weather_packet iso_timestamp upstream_down brussels)
            (initial_world (frozen one_o_clock)))
    = [Log ERROR "Error connecting to RMI api" []].
Proof.
  apply (fetch_failure_returns_empty_record iso_timestamp upstream_down
           brussels (initial_world (frozen one_o_clock)) ClientError).
  - left. reflexivity.
  - reflexivity.
Defined.

(** ** The rain rate *)

Section RainRate.

Variable strptime_timestamp : string -> option Q.

Abbreviation fetch := (get_weather_packet strptime_timestamp).
Abbreviation past := (all_past strptime_timestamp).
Abbreviation future := (in_future strptime_timestamp).

(** The fetch when the forecasts hold an entry in the future: the rate comes
    from the entry before the first such entry. *)
Lemma fetch_first_future api self w before prev fut after :
  refresh api (latitude self) (longitude self) = Return tt ->
  close api = Return tt ->
  radar_forecast api = before ++ prev :: fut :: after ->
  past (clock w) (ticks w) (before ++ [prev]) ->
  future (clock w (ticks w + S (length before))%nat) fut ->
  run (fetch api self) w =
    match py_mul6 (value_get prev "native_precipitation") with
    | Return rate =>
        Return (dict_set (map_fields (field_map_of self w) (current_weather api))
                         "rainRate" rate)
    | Raise e => Raise e
    end.
Proof.
  intros Hrefresh Hclose Hforecasts Hpast Hfut. unfold run.
  rewrite fetch_connected by done. rewrite Hforecasts.
  assert (exists first, first_forecast (before ++ prev :: fut :: after)
                        = Return first) as [first ->].
  { destruct before; simpl; eauto. }
  replace (before ++ prev :: fut :: after)
    with ((before ++ [prev]) ++ fut :: after) by by rewrite <- app_assoc.
  rewrite scan_forecasts_first_future.
  - simpl. by rewrite last_last.
  - exact Hpast.
  - simpl. rewrite length_app. simpl.
    by replace (length before + 1)%nat with (S (length before)) by lia.
Qed.

(** C2: when the forecasts hold an entry strictly after the current time
    and, before the first such entry, at least one entry at or before the
    current time, the fetch returns the mapped record with the rain rate set
    to six times the precipitation of [prev], the entry just before the
    first future one. For the forecasts (t0, 1.0), (t1, 2.0), (t2, 3.0) with
    t1 <= now < t2 the rain rate is 12.0. *)
Theorem rain_rate_from_entry_before_first_future :
  (forall (api : upstream) (self : RMIDataFetcher) (w : world)
          (before : list (pydict value)) (prev fut : pydict value)
          (after : list (pydict value)) (precipitation : float),
      refresh api (latitude self) (longitude self) = Return tt ->
      close api = Return tt ->
      radar_forecast api = before ++ prev :: fut :: after ->
      past (clock w) (ticks w) (before ++ [prev]) ->
      future (clock w (ticks w + S (length before))%nat) fut ->
      value_get prev "native_precipitation" = VFloat precipitation ->
      run (fetch api self) w
      = Return (dict_set (map_fields (field_map_of self w) (current_weather api))
                         "rainRate" (VFloat (precipitation * 6)%float))) /\
  (forall (api : upstream) (self : RMIDataFetcher) (w : world)
          (s0 s1 s2 : string) (t0 t1 t2 now : Q),
      refresh api (latitude self) (longitude self) = Return tt ->
      close api = Return tt ->
      radar_forecast api = [ forecast_point s0 1%float;
                             forecast_point s1 2%float;
                             forecast_point s2 3%float ] ->
      strptime_timestamp s0 = Some t0 ->
      strptime_timestamp s1 = Some t1 ->
      strptime_timestamp s2 = Some t2 ->
      (t0 <= t1)%Q -> (t1 <= now)%Q -> (now < t2)%Q ->
      (forall n, clock w n = now) ->
      exists packet,
        run (fetch api self) w = Return packet /\
        dict_get packet "rainRate" = Some (VFloat 12%float)).
Proof.
  split.
  - intros api self w before prev fut after precipitation
           Hrefresh Hclose Hforecasts Hpast Hfut Hprev.
    rewrite (fetch_first_future api self w before prev fut after) by done.
    by rewrite Hprev.
  - intros api self w s0 s1 s2 t0 t1 t2 now Hrefresh Hclose Hforecasts
           H0 H1 H2 H01 H1now Hnow2 Hclock.
    eexists. split.
    + rewrite (fetch_first_future api self w [forecast_point s0 1%float]
                 (forecast_point s1 2%float) (forecast_point s2 3%float) []);
        [reflexivity | done | done | done | |].
      * intros i forecast Hi. rewrite Hclock.
        destruct i as [|[|i]]; simpl in Hi; inversion Hi; subst.
        -- exists t0. unfold forecast_timestamp. simpl. rewrite H0.
           split; [done|]. by apply (Qle_trans _ t1).
        -- exists t1. unfold forecast_timestamp. simpl. by rewrite H1.
      * exists t2. unfold forecast_timestamp. simpl. by rewrite H2, Hclock.
    + apply dict_get_set_same.
Qed.

(** C1, as the code has it: when the forecasts are not empty and every entry
    is at or before the current time, the fetch returns the mapped record as
    it is. No rain rate is derived from the last entry, and the record has
    no rain-rate key (unless the field map itself has an output of that
    name). *)
Theorem stale_forecast_adds_no_rain_rate (api : upstream)
    (self : RMIDataFetcher) (w : world) :
  refresh api (latitude self) (longitude self) = Return tt ->
  close api = Return tt ->
  radar_forecast api <> [] ->
  past (clock w) (ticks w) (radar_forecast api) ->
  run (fetch api self) w
  = Return (map_fields (field_map_of self w) (current_weather api)) /\
  (dict_get (field_map_of self w) "rainRate" = None ->
   dict_get (map_fields (field_map_of self w) (current_weather api)) "rainRate"
   = None).
Proof.
  intros Hrefresh Hclose Hne Hpast. split.
  - unfold run. rewrite fetch_connected by done.
    destruct (radar_forecast api) as [|first rest] eqn:E; [done|].
    cbn [first_forecast].
    by rewrite scan_forecasts_all_past.
  - rewrite !dict_get_None. by rewrite map_fields_keys.
Qed.

End RainRate.

Ltac sample_entry Hi :=
  simpl in Hi; inversion Hi; subst; clear Hi;
  eexists; split; [vm_compute; reflexivity | unfold Qle; simpl; lia].

Lemma sample_forecasts_stale :
  all_past iso_timestamp (frozen one_o_clock) 0 sample_forecasts.
Proof.
  intros i forecast Hi.
  destruct i as [|[|[|i]]]; [sample_entry Hi .. | discriminate Hi].
Qed.

Lemma rain_rate_from_entry_before_first_future_witness :
  run (get_weather_packet iso_timestamp (upstream_ok sample_forecasts) brussels)
      (initial_world (frozen quarter_past_noon))
  = Return (dict_set
              (map_fields
                 (field_map_of brussels (initial_world (frozen quarter_past_noon)))
                 sample_weather)
              "rainRate" (VFloat (2 * 6)%float)).
Proof.
  apply (proj1 (rain_rate_from_entry_before_first_future iso_timestamp)
           (upstream_ok sample_forecasts) brussels
           (initial_world (frozen quarter_past_noon))
           [forecast_point "2025-01-01T12:00:00+01:00" 1%float]
           (forecast_point "2025-01-01T12:10:00+01:00" 2%float)
           (forecast_point "2025-01-01T12:20:00+01:00" 3%float)
           [] 2%float).
  - reflexivity.
  - reflexivity.
  - reflexivity.
  - intros i forecast Hi.
    destruct i as [|[|i]]; [sample_entry Hi .. | discriminate Hi].
  - eexists. split; [vm_compute; reflexivity | unfold Qlt; simpl; lia].
  - reflexivity.
Defined.

(** The same fetch, evaluated: the record of the sample weather with a rain
    rate of 12.0. *)
Example fetch_sample :
  run (get_weather_packet iso_timestamp (upstream_ok sample_forecasts) brussels)
      (initial_world (frozen quarter_past_noon))
  = Return [ ("barometer", VInt 1013); ("outTemp", VFloat 21.5%float);
             ("windSpeed", VFloat 0%float); ("windGust", VNone);
             ("windDir", VNone); ("cloudcover", VInt 50);
             ("rainRate", VFloat 12%float) ].
Proof. vm_compute. reflexivity. Qed.

Lemma stale_forecast_adds_no_rain_rate_witness :
  run (get_weather_packet iso_timestamp (upstream_ok sample_forecasts) brussels)
      (initial_world (frozen one_o_clock))
  = Return (map_fields (field_map_of brussels (initial_world (frozen one_o_clock)))
                       sample_weather) /\
  (dict_get (field_map_of brussels (initial_world (frozen one_o_clock)))
            "rainRate" = None ->
   dict_get (map_fields (field_map_of brussels (initial_world (frozen one_o_clock)))
                        sample_weather) "rainRate" = None).
Proof.
  apply (stale_forecast_adds_no_rain_rate iso_timestamp
           (upstream_ok sample_forecasts) brussels
           (initial_world (frozen one_o_clock))).
  - reflexivity.
  - reflexivity.
  - discriminate.
  - exact sample_forecasts_stale.
Defined.

(** C1 fails as stated: the three sample forecasts (12:00, 12:10 and 12:20)
    are all in the past at 13:00 and the sequence is not empty, yet the
    record that the fetch returns has no rain-rate key at all. *)
Lemma stale_forecast_counterexample :
  sample_forecasts <> [] /\
  all_past iso_timestamp (frozen one_o_clock) 0 sample_forecasts /\
  ~ (exists packet rate,
        run (get_weather_packet iso_timestamp (upstream_ok sample_forecasts)
                                brussels)
            (initial_world (frozen one_o_clock)) = Return packet /\
        dict_get packet "rainRate" = Some rate).
Proof.
  split; [discriminate|]. split; [exact sample_forecasts_stale|].
  intros (packet & rate & Hrun & Hget).
  vm_compute in Hrun. inversion Hrun; subst. discriminate Hget.
Qed.

(** C3: with an empty forecast sequence the fetch does not return a record:
    [forecasts[0]] raises [IndexError], after the try block, so it leaves the
    fetch. The driver's loop catches it and yields a packet that has lost the
    mapped fields as well. *)
Theorem empty_forecast_raises_IndexError :
  run (get_weather_packet iso_timestamp (upstream_ok []) brussels)
      (initial_world (frozen one_o_clock)) = Raise IndexError /\
  run (genLoopPackets_step decimal_float iso_timestamp (upstream_ok [])
                           (mkDriver brussels))
      (initial_world (frozen one_o_clock))
  = Return [("dateTime", VInt 1735732800); ("usUnits", VInt METRIC)].
Proof.
  split.
  - unfold run. by rewrite fetch_empty_forecast.
  - vm_compute. reflexivity.
Qed.

(** C7: when the refresh raises, the fetch returns with the session it
    opened still open; [session.close()] is only reached when the refresh
    went through, as in the second fetch here. *)
Theorem session_left_open_when_refresh_fails :
  sessions (exec (get_weather_packet iso_timestamp upstream_down brussels)
                 (initial_world (frozen one_o_clock)))
  = [SessionOpen] /\
  sessions (exec (get_weather_packet iso_timestamp (upstream_ok sample_forecasts)
                                     brussels)
                 (initial_world (frozen one_o_clock)))
  = [SessionClosed].
Proof.
  split.
  - by rewrite (fetch_leaves_session_open_on_error _ _ _ _ ClientError).
  - by rewrite fetch_closes_session_when_connected.
Qed.

(** ** Float coercion by the callers *)

Section Coercion.

Variable float_of_string : string -> option float.
Variable strptime_timestamp : string -> option Q.

Abbreviation get_as_float := (_get_as_float float_of_string).
Abbreviation coerce := (coerce_fields float_of_string).
Abbreviation as_float := (coerced float_of_string).

(** The result of [_get_as_float] depends on the value only. *)
Lemma get_as_float_run data key w :
  run (get_as_float data key) w =
    match dict_get data key with
    | Some x => as_float x
    | None => Return VNone
    end.
Proof.
  unfold run, _get_as_float, coerced, try_except_ValueError.
  destruct (dict_get data key) as [x|]; [|done].
  destruct (truthy x); [|done].
  unfold_monad. destruct (py_float float_of_string x) as [f|e]; [done|].
  by destruct (is_ValueError e).
Qed.


(** The loop over the fetched data stores, for each name, what
    [_get_as_float] answers for it, or stops at the first call that raises. *)
Lemma coerce_fields_entries data vnames :
  forall _packet w packet,
    run (coerce data vnames _packet) w = Return packet ->
    (forall vname, In vname vnames ->
       exists v, run (get_as_float data vname) w = Return v /\
                 dict_get packet vname = Some v) /\
    (forall vname, ~ In vname vnames ->
       dict_get packet vname = dict_get _packet vname).
Proof.
  induction vnames as [|vname vnames IH]; intros _packet w packet.
  - simpl. unfold run. unfold_monad. simpl. intros [= <-]. split; [tauto|done].
  - intros Hrest. unfold run in Hrest. cbn [coerce_fields] in Hrest.
    unfold mbind, M_bind, bind in Hrest.
    pose proof (get_as_float_run data vname w) as Hrun. unfold run in Hrun.
    destruct (get_as_float data vname w) as [[x|e] w1] eqn:E;
      [|discriminate].
    simpl in Hrun.
    destruct (IH (dict_set _packet vname x) w1 packet Hrest) as [Hin Hout].
    split.
    + intros k [<- | Hk].
      * destruct (in_dec string_dec vname vnames) as [Hdup | Hnew].
        -- destruct (Hin vname Hdup) as (v & Hv & Hget). exists v.
           rewrite get_as_float_run in Hv. rewrite get_as_float_run. done.
        -- exists x. rewrite get_as_float_run. split; [done|].
           rewrite (Hout vname Hnew). apply dict_get_set_same.
      * destruct (Hin k Hk) as (v & Hv & Hget). exists v.
        rewrite get_as_float_run in Hv. rewrite get_as_float_run. done.
    + intros k Hk. simpl in Hk. rewrite Hout by tauto.
      apply dict_get_set_other. tauto.
Qed.

(** The loop runs to its end when no value raises anything but
    [ValueError]. *)
Lemma coerce_fields_returns data vnames :
  (forall vname x, In vname vnames -> dict_get data vname = Some x ->
     exists v, as_float x = Return v) ->
  forall _packet w, exists packet,
    run (coerce data vnames _packet) w = Return packet.
Proof.
  induction vnames as [|vname vnames IH]; intros Hsafe _packet w.
  - by exists _packet.
  - unfold run. cbn [coerce_fields]. unfold_monad.
    pose proof (get_as_float_run data vname w) as Hrun. unfold run in Hrun.
    destruct (get_as_float data vname w) as [[x|e] w1] eqn:E; simpl in Hrun.
    + apply IH. intros k y Hk. apply Hsafe. by right.
    + exfalso. destruct (dict_get data vname) as [y|] eqn:Ey; [|discriminate].
      destruct (Hsafe vname y (or_introl eq_refl) Ey) as [v Hv]. congruence.
Qed.

Lemma dict_get_Some_key {V} (d : pydict V) k x :
  dict_get d k = Some x -> In k (dict_keys d).
Proof.
  intros Hget. destruct (in_dec string_dec k (dict_keys d)) as [Hin|Hout];
    [done|].
  apply dict_get_None in Hout. congruence.
Qed.

(** C10: [_get_as_float] answers [None] for a key whose value is falsy,
    as it does for an absent key and without logging; the readings 0, 0.0 and
    the empty string are falsy. A truthy value is converted with [float], and
    a [ValueError] of the conversion is logged and gives [None] too. So in
    the packet that the driver's loop emits, every field whose fetched value
    is falsy is [None]. *)
Theorem falsy_values_coerce_to_null :
  (forall data key w,
      dict_get data key = None ->
      get_as_float data key w = (Return VNone, w)) /\
  (forall data key x w,
      dict_get data key = Some x -> truthy x = false ->
      get_as_float data key w = (Return VNone, w)) /\
  (truthy (VInt 0) = false /\ truthy (VFloat 0%float) = false /\
   truthy (VStr "") = false) /\
  (forall data key x f w,
      dict_get data key = Some x -> truthy x = true ->
      py_float float_of_string x = Return f ->
      get_as_float data key w = (Return (VFloat f), w)) /\
  (forall data key x w,
      dict_get data key = Some x -> truthy x = true ->
      py_float float_of_string x = Raise ValueError ->
      get_as_float data key w
      = (Return VNone,
         mkWorld (heap w) (sessions w)
           (log w ++ [Log ERROR "cannot read value for '%s': %s"
                          [ArgValue x; ArgExn ValueError]])
           (clock w) (ticks w) (bindings w))) /\
  (forall api self w data w1,
      get_weather_packet strptime_timestamp api (driver_fetcher self) w
      = (Return data, w1) ->
      (forall vname x, dict_get data vname = Some x ->
         exists v, as_float x = Return v) ->
      exists packet,
        run (genLoopPackets_step float_of_string strptime_timestamp api self) w
        = Return packet /\
        forall vname x,
          dict_get data vname = Some x -> truthy x = false ->
          dict_get packet vname = Some VNone).
Proof.
  split; [|split; [|split; [|split; [|split]]]].
  - intros data key w Habs. unfold _get_as_float. by rewrite Habs.
  - intros data key x w Hget Hfalsy. unfold _get_as_float.
    by rewrite Hget, Hfalsy.
  - done.
  - intros data key x f w Hget Htruthy Hfloat.
    unfold _get_as_float, try_except_ValueError. rewrite Hget, Htruthy.
    unfold_monad. by rewrite Hfloat.
  - intros data key x w Hget Htruthy Hfloat.
    unfold _get_as_float, try_except_ValueError, log_emit.
    rewrite Hget, Htruthy. unfold_monad. by rewrite Hfloat.
  - intros api self w data w1 Hfetch Hsafe.
    unfold run, genLoopPackets_step, try_except_Exception.
    unfold mbind, M_bind, bind. rewrite Hfetch. unfold time_time.
    set (w2 := mkWorld _ _ _ _ _ _). set (_packet := [_; _]).
    destruct (coerce_fields_returns data (dict_keys data)) with
      (_packet := _packet) (w := w2) as [packet Hpacket].
    { intros vname x _ Hget. by apply (Hsafe vname). }
    exists packet. split; [exact Hpacket|].
    intros vname x Hget Hfalsy.
    destruct (coerce_fields_entries _ _ _ _ _ Hpacket) as [Hin _].
    destruct (Hin vname (dict_get_Some_key _ _ _ Hget)) as (v & Hv & Hstored).
    rewrite get_as_float_run, Hget in Hv. unfold coerced in Hv.
    rewrite Hfalsy in Hv. congruence.
Qed.

End Coercion.

Lemma falsy_values_coerce_to_null_witness :
  _get_as_float decimal_float [("cloudcover", VInt 0)] "cloudcover"
                (initial_world (frozen one_o_clock))
  = (Return VNone, initial_world (frozen one_o_clock)) /\
  _get_as_float decimal_float [("outTemp", VStr "21.5")] "outTemp"
                (initial_world (frozen one_o_clock))
  = (Return (VFloat 21.5%float), initial_world (frozen one_o_clock)) /\
  exists packet,
    run (genLoopPackets_step decimal_float iso_timestamp
           (upstream_ok sample_forecasts) (mkDriver brussels))
        (initial_world (frozen quarter_past_noon)) = Return packet /\
    dict_get packet "windSpeed" = Some VNone.
Proof.
  pose proof (falsy_values_coerce_to_null decimal_float iso_timestamp)
    as (_ & Hfalsy & _ & Htruthy & _ & Hpacket).
  split; [|split].
  - by apply (Hfalsy _ _ (VInt 0)).
  - by apply (Htruthy _ _ (VStr "21.5")).
  - destruct (Hpacket (upstream_ok sample_forecasts) (mkDriver brussels)
                (initial_world (frozen quarter_past_noon))
                [ ("barometer", VInt 1013); ("outTemp", VFloat 21.5%float);
                  ("windSpeed", VFloat 0%float); ("windGust", VNone);
                  ("windDir", VNone); ("cloudcover", VInt 50);
                  ("rainRate", VFloat 12%float) ]
                (exec (get_weather_packet iso_timestamp
                         (upstream_ok sample_forecasts) brussels)
                      (initial_world (frozen quarter_past_noon))))
      as (packet & Hrun & Hnull).
    + vm_compute. reflexivity.
    + intros vname x Hget. simpl in Hget.
      repeat match type of Hget with
             | (if ?c then _ else _) = _ =>
                 destruct c; [injection Hget as <-; eexists; reflexivity|]
             end.
      discriminate Hget.
    + exists packet. split; [exact Hrun|].
      by apply (Hnull "windSpeed" (VFloat 0%float)).
Defined.

(** ** Construction *)

Lemma dict_get_del_other {V} (d : pydict V) k k' :
  k <> k' -> dict_get (dict_del d k) k' = dict_get d k'.
Proof.
  intros Hne. induction d as [|[k0 v0] d IH]; [done|]. simpl.
  destruct (String.eqb k0 k) eqn:E; simpl.
  - apply String.eqb_eq in E as ->.
    apply String.eqb_neq in Hne. by rewrite Hne.
  - by rewrite IH.
Qed.

Lemma dict_get_setdefault_other {V} (d : pydict V) k k' v :
  k <> k' -> dict_get (dict_setdefault d k v) k' = dict_get d k'.
Proof.
  intros Hne. unfold dict_setdefault.
  destruct (dict_get d k); [done|]. by apply dict_get_set_other.
Qed.

Lemma dict_update_nil {V} (d : pydict V) : dict_update d [] = d.
Proof. reflexivity. Qed.

Section Construction.

Variable float_of_string : string -> option float.

Abbreviation init := (RMIDataFetcher_init float_of_string).

(** Constructing a fetcher without [field_map]: the fetcher holds the class
    dictionary itself, and the extensions are written into it. *)
Lemma init_without_field_map stn_dict w poll lat lon d0 ext :
  numbers_of float_of_string stn_dict poll lat lon ->
  dict_get stn_dict "field_map" = None ->
  heap w !! DEFAULT_FIELD_MAP_loc = Some d0 ->
  extends_by stn_dict w ext ->
  init stn_dict w =
    (Return (mkFetcher poll lat lon DEFAULT_FIELD_MAP_loc),
     mkWorld (<[DEFAULT_FIELD_MAP_loc := dict_update d0 ext]>
                (<[fresh (dom (heap w)) := []]> (heap w)))
             (sessions w)
             (log w ++ construction_log (mkFetcher poll lat lon DEFAULT_FIELD_MAP_loc))
             (clock w) (ticks w) (bindings w)).
Proof.
  intros (Hpoll & Hlat & Hlon) Hmap Hdefault Hext.
  assert (fresh (dom (heap w)) <> DEFAULT_FIELD_MAP_loc) as Hfresh.
  { intros Heq. apply (is_fresh (dom (heap w))). rewrite Heq.
    by apply elem_of_dom_2 with d0. }
  unfold RMIDataFetcher_init. unfold_monad. rewrite Hpoll, Hlat, Hlon.
  unfold cfg_get_default at 1. rewrite Hmap.
  unfold alloc, default_field_map. unfold_monad. unfold cfg_get_default.
  rewrite dict_get_del_other by done.
  unfold update_method, read_map, write_map, log_emit. unfold_monad.
  destruct Hext as [[-> ->] | (lx & -> & Hlx)];
    cbn [heap sessions log clock ticks bindings]; unfold deref.
  - rewrite lookup_insert_ne by done. rewrite Hdefault.
    rewrite lookup_insert_eq.
    unfold construction_log. cbn [poll_interval latitude longitude].
    by rewrite <- !app_assoc.
  - assert (fresh (dom (heap w)) <> lx) as Hlx'.
    { intros Heq. apply (is_fresh (dom (heap w))). rewrite Heq.
      by apply elem_of_dom_2 with ext. }
    rewrite !lookup_insert_ne by done. rewrite Hdefault, Hlx.
    unfold construction_log. cbn [poll_interval latitude longitude].
    by rewrite <- !app_assoc.
Qed.

(** Construction binds no event. *)
Lemma init_bindings stn_dict w :
  bindings (exec (init stn_dict) w) = bindings w.
Proof.
  unfold exec, RMIDataFetcher_init, update_method, alloc, default_field_map,
    read_map, write_map, log_emit.
  unfold_monad.
  repeat case_match; simplify_eq; reflexivity.
Qed.

(** C9: a fetcher constructed without [field_map] holds the class-level
    default dictionary itself, and its extensions are written into that
    dictionary. A fetcher constructed later, again without [field_map], holds
    the same dictionary and reads the earlier extensions in its field map
    (where its own extensions do not override them). The default table is
    changed by the construction as soon as the extensions have an entry that
    the table did not have. *)
Theorem default_field_map_is_shared (stn_dict stn_dict' : pydict cfg_value)
    (w : world) (d0 ext ext' : pydict string)
    (poll lat lon poll' lat' lon' : float) :
  numbers_of float_of_string stn_dict poll lat lon ->
  dict_get stn_dict "field_map" = None ->
  extends_by stn_dict w ext ->
  dict_wf ext ->
  heap w !! DEFAULT_FIELD_MAP_loc = Some d0 ->
  numbers_of float_of_string stn_dict' poll' lat' lon' ->
  dict_get stn_dict' "field_map" = None ->
  exists first,
    run (init stn_dict) w = Return first /\
    _obs_map first = DEFAULT_FIELD_MAP_loc /\
    heap (exec (init stn_dict) w) !! DEFAULT_FIELD_MAP_loc
      = Some (dict_update d0 ext) /\
    ((exists k, dict_get ext k <> None /\ dict_get ext k <> dict_get d0 k) ->
     heap (exec (init stn_dict) w) !! DEFAULT_FIELD_MAP_loc
       <> heap w !! DEFAULT_FIELD_MAP_loc) /\
    (forall w' : world,
        heap w' !! DEFAULT_FIELD_MAP_loc
          = heap (exec (init stn_dict) w) !! DEFAULT_FIELD_MAP_loc ->
        extends_by stn_dict' w' ext' ->
        dict_wf ext' ->
        exists second,
          run (init stn_dict') w' = Return second /\
          _obs_map second = _obs_map first /\
          field_map_of second (exec (init stn_dict') w')
            = dict_update (dict_update d0 ext) ext' /\
          (forall k v, In (k, v) ext -> dict_get ext' k = None ->
             dict_get (field_map_of second (exec (init stn_dict') w')) k
             = Some v)).
Proof.
  intros Hnum Hmap Hext Hwf Hdefault Hnum' Hmap'.
  pose proof (init_without_field_map stn_dict w poll lat lon d0 ext
                Hnum Hmap Hdefault Hext) as Hinit.
  exists (mkFetcher poll lat lon DEFAULT_FIELD_MAP_loc).
  unfold run, exec. rewrite Hinit. cbn [fst snd heap _obs_map].
  rewrite lookup_insert_eq.
  split; [done|]. split; [done|]. split; [done|]. split.
  - intros (k & Hk & Hdiff). rewrite Hdefault. intros [= Heq].
    apply Hdiff. rewrite <- Heq. rewrite dict_get_update by done.
    by destruct (dict_get ext k).
  - intros w' Hsame Hext' Hwf'.
    pose proof (init_without_field_map stn_dict' w' poll' lat' lon'
                  (dict_update d0 ext) ext' Hnum' Hmap' Hsame Hext') as Hinit'.
    exists (mkFetcher poll' lat' lon' DEFAULT_FIELD_MAP_loc).
    rewrite Hinit'. unfold field_map_of, deref. cbn [fst snd heap _obs_map].
    rewrite lookup_insert_eq.
    split; [done|]. split; [done|]. split; [done|].
    intros k v Hin Hnone.
    rewrite dict_get_update by done. rewrite Hnone.
    rewrite dict_get_update by done.
    by rewrite (dict_get_In ext k v Hwf Hin).
Qed.

Lemma with_station_location_other engine section k :
  k <> "latitude" -> k <> "longitude" ->
  dict_get (with_station_location engine section) k = dict_get section k.
Proof.
  intros Hlat Hlon. unfold with_station_location.
  by rewrite !dict_get_setdefault_other.
Qed.

(** What the service constructor does once the fetcher is there. *)
Lemma service_init_after_fetcher engine config_dict section w fetcher w1 :
  dict_get config_dict DRIVER_NAME = Some section ->
  init (with_station_location engine section) w = (Return fetcher, w1) ->
  RMIService_init float_of_string engine config_dict w =
    (let binding := cfg_get_default section "binding" (CV (VStr "loop")) in
     let enable := cfg_get_default section "enable" (CV (VBool true)) in
     let self := mkService fetcher binding enable in
     enabled ← cfg_truthy enable;
     if negb enabled then
       log_emit (Log INFO "RMI service not enabled, exiting." []);;
       mret self
     else if cfg_eq_str binding "loop" then
       bind_event NEW_LOOP_PACKET new_loop_packet;;
       mret self
     else if cfg_eq_str binding "archive" then
       bind_event NEW_ARCHIVE_RECORD new_archive_record;;
       mret self
     else raise ValueError) w1.
Proof.
  intros Hsection Hinit. unfold RMIService_init. rewrite Hsection.
  unfold mbind at 1, M_bind at 1, bind at 1. rewrite Hinit.
  unfold cfg_get_default.
  by rewrite !with_station_location_other by discriminate.
Qed.

(** When the fetcher cannot be constructed, neither can the service. *)
Lemma service_init_fetcher_raises engine config_dict section w e w1 :
  dict_get config_dict DRIVER_NAME = Some section ->
  init (with_station_location engine section) w = (Raise e, w1) ->
  RMIService_init float_of_string engine config_dict w = (Raise e, w1).
Proof.
  intros Hsection Hinit. unfold RMIService_init. rewrite Hsection.
  unfold mbind at 1, M_bind at 1, bind at 1. by rewrite Hinit.
Qed.

(** C8, as the code has it: the binding is checked only when the service is
    enabled. With [enable] truthy (the default), constructing the service
    raises for every binding other than "loop" and "archive" ([ValueError],
    once the fetcher is constructed), and "loop" and "archive" are accepted
    and bound to their event. With [enable] falsy the constructor returns
    before the check: any binding is accepted and nothing is bound. *)
Theorem binding_is_checked_when_enabled (engine : Engine)
    (config_dict : pydict (pydict cfg_value)) (section : pydict cfg_value)
    (w : world) (binding : cfg_value) (enable : value) :
  dict_get config_dict DRIVER_NAME = Some section ->
  cfg_get_default section "binding" (CV (VStr "loop")) = binding ->
  cfg_get_default section "enable" (CV (VBool true)) = CV enable ->
  (truthy enable = true ->
   cfg_eq_str binding "loop" = false ->
   cfg_eq_str binding "archive" = false ->
   exists e, run (RMIService_init float_of_string engine config_dict) w
             = Raise e) /\
  (forall fetcher w1,
      init (with_station_location engine section) w = (Return fetcher, w1) ->
      let self := mkService fetcher binding (CV enable) in
      (truthy enable = true ->
       cfg_eq_str binding "loop" = false ->
       cfg_eq_str binding "archive" = false ->
       run (RMIService_init float_of_string engine config_dict) w
       = Raise ValueError) /\
      (truthy enable = true ->
       binding = CV (VStr "loop") ->
       run (RMIService_init float_of_string engine config_dict) w
       = Return self /\
       bindings (exec (RMIService_init float_of_string engine config_dict) w)
       = bindings w ++ [(NEW_LOOP_PACKET, new_loop_packet)]) /\
      (truthy enable = true ->
       binding = CV (VStr "archive") ->
       run (RMIService_init float_of_string engine config_dict) w
       = Return self /\
       bindings (exec (RMIService_init float_of_string engine config_dict) w)
       = bindings w ++ [(NEW_ARCHIVE_RECORD, new_archive_record)]) /\
      (truthy enable = false ->
       run (RMIService_init float_of_string engine config_dict) w
       = Return self /\
       bindings (exec (RMIService_init float_of_string engine config_dict) w)
       = bindings w)).
Proof.
  intros Hsection Hbinding Henable. split.
  - intros Htruthy Hloop Harchive.
    destruct (init (with_station_location engine section) w)
      as [[fetcher|e] w1] eqn:Hinit.
    + exists ValueError. unfold run.
      rewrite (service_init_after_fetcher _ _ _ _ _ _ Hsection Hinit).
      rewrite Hbinding, Henable. cbn [cfg_truthy]. unfold_monad.
      by rewrite Htruthy, Hloop, Harchive.
    + exists e. unfold run.
      by rewrite (service_init_fetcher_raises _ _ _ _ _ _ Hsection Hinit).
  - intros fetcher w1 Hinit self.
    assert (bindings w1 = bindings w) as Hframe.
    { pose proof (init_bindings (with_station_location engine section) w) as H.
      unfold exec in H. by rewrite Hinit in H. }
    unfold run, exec.
    rewrite (service_init_after_fetcher _ _ _ _ _ _ Hsection Hinit).
    rewrite Hbinding, Henable. cbn [cfg_truthy]. unfold_monad.
    split; [|split; [|split]].
    + intros Htruthy Hloop Harchive. by rewrite Htruthy, Hloop, Harchive.
    + intros Htruthy ->. rewrite Htruthy. unfold bind_event. simpl.
      by rewrite Hframe.
    + intros Htruthy ->. rewrite Htruthy. unfold bind_event. simpl.
      by rewrite Hframe.
    + intros Hfalsy. rewrite Hfalsy. unfold log_emit. simpl. done.
Qed.

End Construction.

Lemma default_field_map_is_shared_witness :
  exists first second,
    run (RMIDataFetcher_init decimal_float extended_args) world_with_extension
    = Return first /\
    run (RMIDataFetcher_init decimal_float plain_args)
        (exec (RMIDataFetcher_init decimal_float extended_args)
              world_with_extension)
    = Return second /\
    _obs_map second = _obs_map first /\
    dict_get
      (field_map_of second
         (exec (RMIDataFetcher_init decimal_float plain_args)
               (exec (RMIDataFetcher_init decimal_float extended_args)
                     world_with_extension)))
      "UV" = Some "uv_index" /\
    heap (exec (RMIDataFetcher_init decimal_float extended_args)
               world_with_extension) !! DEFAULT_FIELD_MAP_loc
    <> heap world_with_extension !! DEFAULT_FIELD_MAP_loc.
Proof.
  destruct (default_field_map_is_shared decimal_float extended_args plain_args
              world_with_extension DEFAULT_FIELD_MAP extension []
              60%float 50.75%float 4.5%float 60%float 50.75%float 4.5%float)
    as (first & Hfirst & _ & _ & Hchanged & Hlater).
  - repeat split; vm_compute; reflexivity.
  - reflexivity.
  - right. exists extension_loc. split; reflexivity.
  - unfold dict_wf. by compute_done.
  - reflexivity.
  - repeat split; vm_compute; reflexivity.
  - reflexivity.
  - destruct (Hlater (exec (RMIDataFetcher_init decimal_float extended_args)
                           world_with_extension))
      as (second & Hsecond & Hsame & _ & Hsees).
    + reflexivity.
    + left. split; reflexivity.
    + unfold dict_wf. by compute_done.
    + exists first, second. split; [exact Hfirst|]. split; [exact Hsecond|].
      split; [exact Hsame|]. split.
      * apply Hsees; [simpl; tauto | reflexivity].
      * apply Hchanged. exists "UV". split; discriminate.
Defined.

Lemma binding_is_checked_when_enabled_witness :
  run (RMIService_init decimal_float station config_unknown)
      (initial_world (frozen one_o_clock)) = Raise ValueError /\
  bindings (exec (RMIService_init decimal_float station config_archive)
                 (initial_world (frozen one_o_clock)))
  = [(NEW_ARCHIVE_RECORD, new_archive_record)].
Proof.
  split.
  - apply (binding_is_checked_when_enabled decimal_float station config_unknown
             [("binding", CV (VStr "hourly"))]
             (initial_world (frozen one_o_clock))
             (CV (VStr "hourly")) (VBool true) eq_refl eq_refl eq_refl)
      with (fetcher := brussels)
           (w1 := exec (RMIDataFetcher_init decimal_float
                          (with_station_location station
                             [("binding", CV (VStr "hourly"))]))
                       (initial_world (frozen one_o_clock)));
      [vm_compute; reflexivity | reflexivity ..].
  - apply (binding_is_checked_when_enabled decimal_float station config_archive
             [("binding", CV (VStr "archive"))]
             (initial_world (frozen one_o_clock))
             (CV (VStr "archive")) (VBool true) eq_refl eq_refl eq_refl)
      with (fetcher := brussels)
           (w1 := exec (RMIDataFetcher_init decimal_float
                          (with_station_location station
                             [("binding", CV (VStr "archive"))]))
                       (initial_world (frozen one_o_clock)));
      [vm_compute; reflexivity | reflexivity ..].
Defined.

(** C8 fails as stated: with the service switched off, the unknown binding
    "hourly" is accepted; constructing the service raises nothing and binds
    nothing. *)
Lemma unknown_binding_accepted_when_disabled :
  (exists section,
      dict_get config_disabled DRIVER_NAME = Some section /\
      dict_get section "binding" = Some (CV (VStr "hourly"))) /\
  ~ (exists e,
        run (RMIService_init decimal_float station config_disabled)
            (initial_world (frozen one_o_clock)) = Raise e) /\
  bindings (exec (RMIService_init decimal_float station config_disabled)
                 (initial_world (frozen one_o_clock))) = [].
Proof.
  split; [|split].
  - eexists. split; reflexivity.
  - intros [e He]. vm_compute in He. discriminate He.
  - vm_compute. reflexivity.
Qed.

(** * More of the module *)

(** ** The fetch: edges of the scan *)

Lemma Qgtb_false_past t now : Qgtb t now = false -> (t <= now)%Q.
Proof.
  unfold Qgtb. intros H. apply Qle_bool_iff.
  by destruct (Qle_bool t now).
Qed.

Lemma Qgtb_true_future t now : Qgtb t now = true -> (now < t)%Q.
Proof.
  unfold Qgtb. intros H. apply Qnot_le_lt. intros Hle.
  apply Qle_bool_iff in Hle. by rewrite Hle in H.
Qed.

(** The mapped record never holds a key twice. *)
Lemma map_fields_wf obs_map weather : dict_wf (map_fields obs_map weather).
Proof.
  unfold map_fields.
  assert (dict_wf (@nil (string * value))) as Hnil by apply NoDup_nil_2.
  revert Hnil. generalize (@nil (string * value)).
  induction obs_map as [|[k src] obs_map IH]; intros acc Hacc; simpl; [done|].
  apply IH. destruct (String.eqb src "condition"); by apply dict_set_wf.
Qed.

Section FetchEdges.

Variable strptime_timestamp : string -> option Q.

Abbreviation fetch := (get_weather_packet strptime_timestamp).
Abbreviation scan := (scan_forecasts strptime_timestamp).
Abbreviation past := (all_past strptime_timestamp).
Abbreviation future := (in_future strptime_timestamp).
Abbreviation timestamp := (forecast_timestamp strptime_timestamp).

(** The scan stops at an entry whose timestamp cannot be read. *)
Lemma scan_forecasts_bad_entry before bad after prev packet w e :
  past (clock w) (ticks w) before ->
  timestamp bad = Raise e ->
  scan (before ++ bad :: after) prev packet w
  = (Raise e, advance (length before) w).
Proof.
  revert prev w. induction before as [|forecast before IH]; intros prev w Hpast Hbad.
  - simpl. unfold_monad. rewrite Hbad. by rewrite advance_0.
  - apply all_past_cons in Hpast as [(t & Ht & Hle) Hrest].
    change ((forecast :: before) ++ bad :: after)
      with (forecast :: (before ++ bad :: after)).
    cbn [scan_forecasts]. unfold_monad. rewrite Ht. unfold time_time.
    rewrite (Qgtb_past _ _ Hle). rewrite (IH forecast) by done.
    unfold advance. cbn [heap sessions log clock ticks bindings length].
    do 2 f_equal. lia.
Qed.

(** The scan reads the clock at most once per entry and touches nothing
    else. *)
Lemma scan_forecasts_reads l prev packet w :
  exists n, (n <= length l)%nat /\ snd (scan l prev packet w) = advance n w.
Proof.
  revert prev w. induction l as [|forecast l IH]; intros prev w.
  - exists 0%nat. split; [done|]. simpl. unfold_monad. simpl.
    by rewrite advance_0.
  - simpl. unfold_monad.
    destruct (timestamp forecast) as [t|e].
    + unfold time_time. destruct (Qgtb t (clock w (ticks w))).
      * exists 1%nat. split; [lia|].
        destruct (py_mul6 _); simpl; unfold advance; simpl; do 2 f_equal; lia.
      * destruct (IH forecast (mkWorld (heap w) (sessions w) (log w) (clock w)
                                 (S (ticks w)) (bindings w)))
          as (n & Hn & Hsnd).
        exists (S n). split; [lia|]. rewrite Hsnd. unfold advance. simpl.
        f_equal. lia.
    + exists 0%nat. split; [lia|]. simpl. by rewrite advance_0.
Qed.

(** The result of the scan depends on the clock only. *)
Lemma scan_forecasts_result_clock l prev packet w w' :
  clock w = clock w' -> ticks w = ticks w' ->
  fst (scan l prev packet w) = fst (scan l prev packet w').
Proof.
  revert prev w w'. induction l as [|forecast l IH]; intros prev w w' Hc Ht.
  - done.
  - simpl. unfold_monad.
    destruct (timestamp forecast) as [t|e]; [|done].
    unfold time_time. rewrite Hc, Ht.
    destruct (Qgtb t (clock w' (ticks w'))).
    + by destruct (py_mul6 _).
    + apply IH; simpl; congruence.
Qed.

(** A rain rate in the scanned record comes from an entry in the future,
    with every entry before it in the past. *)
Lemma scan_forecasts_rate_origin l :
  forall prev packet w result rate,
    fst (scan l prev packet w) = Return result ->
    dict_get packet "rainRate" = None ->
    dict_get result "rainRate" = Some rate ->
    exists i fut,
      l !! i = Some fut /\
      future (clock w (ticks w + i)%nat) fut /\
      past (clock w) (ticks w) (take i l) /\
      py_mul6 (value_get (List.last (take i l) prev) "native_precipitation")
      = Return rate.
Proof.
  induction l as [|forecast l IH]; intros prev packet w result rate.
  - simpl. unfold_monad. simpl. intros [= <-] Hnone Hsome. congruence.
  - simpl. unfold_monad.
    destruct (timestamp forecast) as [t|e] eqn:Ht; [|discriminate].
    unfold time_time. destruct (Qgtb t (clock w (ticks w))) eqn:Hgt.
    + destruct (py_mul6 _) as [r|e] eqn:Hmul; simpl; [|discriminate].
      intros [= <-] _ Hsome. rewrite dict_get_set_same in Hsome.
      injection Hsome as ->.
      exists 0%nat, forecast. split; [done|]. split.
      * exists t. rewrite Nat.add_0_r. split; [done|].
        by apply Qgtb_true_future.
      * split; [|done]. intros i pt Hi. by destruct i.
    + intros Hrun Hnone Hsome.
      destruct (IH forecast packet _ result rate Hrun Hnone Hsome)
        as (i & fut & Hi & Hfut & Hpast & Hrate).
      cbn [clock ticks] in Hfut, Hpast.
      exists (S i), fut. split; [done|]. split.
      * by replace (ticks w + S i)%nat with (S (ticks w) + i)%nat by lia.
      * split.
        -- intros j pt Hj. destruct j as [|j]; simpl in Hj.
           ++ injection Hj as <-. exists t. rewrite Nat.add_0_r.
              split; [done|]. by apply Qgtb_false_past.
           ++ specialize (Hpast j pt Hj).
              by replace (ticks w + S j)%nat with (S (ticks w) + j)%nat by lia.
        -- cbn [take]. by rewrite last_cons.
Qed.

End FetchEdges.

Lemma last_take {A} (l : list A) :
  forall (j : nat) (d x : A),
    l !! j = Some x -> List.last (take (S j) l) d = x.
Proof.
  induction l as [|y l IH]; intros j d x Hj; [done|].
  destruct j as [|j]; simpl in Hj.
  - by injection Hj as ->.
  - change (take (S (S j)) (y :: l)) with (y :: take (S j) l).
    rewrite last_cons. by apply IH.
Qed.

Section FetchExtras.

Variable strptime_timestamp : string -> option Q.

Abbreviation fetch := (get_weather_packet strptime_timestamp).
Abbreviation past := (all_past strptime_timestamp).
Abbreviation future := (in_future strptime_timestamp).

(** When the very first forecast entry is already in the future, the rain
    rate is taken from that entry itself: [prev] starts as [forecasts[0]]. *)
Theorem first_entry_in_future_gives_its_own_rate (api : upstream)
    (self : RMIDataFetcher) (w : world) (first : pydict value)
    (after : list (pydict value)) (precipitation : float) :
  refresh api (latitude self) (longitude self) = Return tt ->
  close api = Return tt ->
  radar_forecast api = first :: after ->
  future (clock w (ticks w)) first ->
  value_get first "native_precipitation" = VFloat precipitation ->
  run (fetch api self) w
  = Return (dict_set (map_fields (field_map_of self w) (current_weather api))
                     "rainRate" (VFloat (precipitation * 6)%float)).
Proof.
  intros Hrefresh Hclose Hforecasts Hfut Hprev. unfold run.
  rewrite fetch_connected by done. rewrite Hforecasts. cbn [first_forecast].
  rewrite (scan_forecasts_first_future strptime_timestamp [] first after).
  - simpl. by rewrite Hprev.
  - intros i pt Hi. by destruct i.
  - simpl. by rewrite Nat.add_0_r.
Qed.

(** An exception that is not an [Exception] (a cancellation, a keyboard
    interrupt) raised by the refresh or by closing the session is not caught:
    it leaves the fetch, nothing is logged, and the session stays open. *)
Theorem fetch_lets_BaseException_through (api : upstream)
    (self : RMIDataFetcher) (w : world) (e : exn) :
  refresh api (latitude self) (longitude self) = Raise e \/
  (refresh api (latitude self) (longitude self) = Return tt /\
   close api = Raise e) ->
  is_Exception e = false ->
  run (fetch api self) w = Raise e /\
  log (exec (fetch api self) w) = log w /\
  sessions (exec (fetch api self) w) = sessions w ++ [SessionOpen].
Proof.
  intros Hfail He. unfold run, exec.
  by rewrite (fetch_disconnected _ api self w e Hfail), He.
Qed.

(** A forecast entry that the scan reaches and whose timestamp is missing
    or cannot be parsed makes the fetch raise ([TypeError], [ValueError]),
    although the request itself went through: the scan runs outside the try
    block. Entries after the first future one are never looked at. *)
Theorem fetch_raises_on_unreadable_timestamp (api : upstream)
    (self : RMIDataFetcher) (w : world)
    (before : list (pydict value)) (bad : pydict value)
    (after : list (pydict value)) :
  refresh api (latitude self) (longitude self) = Return tt ->
  close api = Return tt ->
  radar_forecast api = before ++ bad :: after ->
  past (clock w) (ticks w) before ->
  (dict_get bad "datetime" = None ->
   run (fetch api self) w = Raise TypeError) /\
  (forall s, dict_get bad "datetime" = Some (VStr s) ->
             strptime_timestamp s = None ->
             run (fetch api self) w = Raise ValueError).
Proof.
  intros Hrefresh Hclose Hforecasts Hpast.
  assert (forall e, forecast_timestamp strptime_timestamp bad = Raise e ->
                    run (fetch api self) w = Raise e) as Hraise.
  { intros e Hbad. unfold run. rewrite fetch_connected by done.
    rewrite Hforecasts.
    assert (exists x, first_forecast (before ++ bad :: after) = Return x)
      as [x ->] by (destruct before; simpl; eauto).
    by rewrite (scan_forecasts_bad_entry _ before bad after x _ _ e). }
  split.
  - intros Hnone. apply Hraise. unfold forecast_timestamp, value_get.
    by rewrite Hnone.
  - intros s Hs Hparse. apply Hraise. unfold forecast_timestamp, value_get.
    by rewrite Hs, Hparse.
Qed.

(** When the entry before the first future one has no precipitation value,
    [None * 6] raises [TypeError] out of the fetch. *)
Theorem fetch_raises_on_missing_precipitation (api : upstream)
    (self : RMIDataFetcher) (w : world) (before : list (pydict value))
    (prev fut : pydict value) (after : list (pydict value)) :
  refresh api (latitude self) (longitude self) = Return tt ->
  close api = Return tt ->
  radar_forecast api = before ++ prev :: fut :: after ->
  past (clock w) (ticks w) (before ++ [prev]) ->
  future (clock w (ticks w + S (length before))%nat) fut ->
  value_get prev "native_precipitation" = VNone ->
  run (fetch api self) w = Raise TypeError.
Proof.
  intros Hrefresh Hclose Hforecasts Hpast Hfut Hnone.
  rewrite (fetch_first_future _ api self w before prev fut after) by done.
  by rewrite Hnone.
Qed.

(** The world after a fetch *)
Lemma fetch_world api self w :
  exists (s : session_state) (records : list log_record) (n : nat),
    exec (fetch api self) w
    = mkWorld (heap w) (sessions w ++ [s]) (log w ++ records) (clock w)
              (ticks w + n) (bindings w) /\
    (length records <= 1)%nat /\
    (n <= length (radar_forecast api))%nat.
Proof.
  unfold exec.
  destruct (refresh api (latitude self) (longitude self)) as [[]|e] eqn:Hrefresh.
  - destruct (close api) as [[]|e] eqn:Hclose.
    + rewrite fetch_connected by done.
      destruct (first_forecast (radar_forecast api)) as [prev|e].
      * destruct (scan_forecasts_reads strptime_timestamp (radar_forecast api)
                    prev (map_fields (field_map_of self w) (current_weather api))
                    (connected w)) as (n & Hn & ->).
        exists SessionClosed, [], n. rewrite app_nil_r.
        split; [done|]. split; [simpl; lia | done].
      * exists SessionClosed, [], 0%nat. simpl.
        rewrite app_nil_r, Nat.add_0_r. split; [done|]. split; lia.
    + rewrite (fetch_disconnected _ api self w e) by (right; done).
      destruct (is_Exception e).
      * eexists SessionOpen, [_], 0%nat. simpl. rewrite Nat.add_0_r.
        split; [done|]. split; lia.
      * exists SessionOpen, [], 0%nat. simpl.
        rewrite app_nil_r, Nat.add_0_r. split; [done|]. split; lia.
  - rewrite (fetch_disconnected _ api self w e) by (left; done).
    destruct (is_Exception e).
    + eexists SessionOpen, [_], 0%nat. simpl. rewrite Nat.add_0_r.
      split; [done|]. split; lia.
    + exists SessionOpen, [], 0%nat. simpl.
      rewrite app_nil_r, Nat.add_0_r. split; [done|]. split; lia.
Qed.

(** A fetch leaves the field maps, the clock and the event bindings as
    they were. It adds exactly one session, at most one log record, and reads
    the clock at most once per forecast entry. *)
Theorem fetch_touches_sessions_log_and_clock_only (api : upstream)
    (self : RMIDataFetcher) (w : world) :
  heap (exec (fetch api self) w) = heap w /\
  clock (exec (fetch api self) w) = clock w /\
  bindings (exec (fetch api self) w) = bindings w /\
  (exists s, sessions (exec (fetch api self) w) = sessions w ++ [s]) /\
  (exists records, log (exec (fetch api self) w) = log w ++ records /\
                   (length records <= 1)%nat) /\
  (ticks w <= ticks (exec (fetch api self) w)
   <= ticks w + length (radar_forecast api))%nat.
Proof.
  destruct (fetch_world api self w) as (s & records & n & -> & Hlog & Hn).
  cbn [heap sessions log clock ticks bindings].
  split; [done|]. split; [done|]. split; [done|].
  split; [by exists s|]. split; [by exists records|]. lia.
Qed.

(** What a fetch answers depends on the field maps and on the clock only. *)
Lemma fetch_result_depends_on api self w w' :
  heap w = heap w' -> clock w = clock w' -> ticks w = ticks w' ->
  run (fetch api self) w = run (fetch api self) w'.
Proof.
  intros Hh Hc Ht. unfold run.
  destruct (refresh api (latitude self) (longitude self)) as [[]|e] eqn:Hrefresh.
  - destruct (close api) as [[]|e] eqn:Hclose.
    + rewrite !fetch_connected by done.
      destruct (first_forecast (radar_forecast api)) as [prev|e]; [|done].
      unfold field_map_of. rewrite Hh.
      by apply scan_forecasts_result_clock.
    + rewrite !(fetch_disconnected _ api self _ e) by (right; done).
      by destruct (is_Exception e).
  - rewrite !(fetch_disconnected _ api self _ e) by (left; done).
    by destruct (is_Exception e).
Qed.

(** Two fetches in a row: the second opens a session of its own and leaves
    the session of the first as the first left it, and it answers what it
    would have answered without the first but for the clock readings the
    first has used. *)
Theorem second_fetch_is_independent (api1 api2 : upstream)
    (self1 self2 : RMIDataFetcher) (w : world) :
  exists (s1 s2 : session_state) (n : nat),
    sessions (exec (fetch api1 self1) w) = sessions w ++ [s1] /\
    sessions (exec (fetch api2 self2) (exec (fetch api1 self1) w))
    = sessions w ++ [s1; s2] /\
    (n <= length (radar_forecast api1))%nat /\
    run (fetch api2 self2) (exec (fetch api1 self1) w)
    = run (fetch api2 self2) (advance n w).
Proof.
  destruct (fetch_world api1 self1 w)
    as (s1 & r1 & n & H1 & _ & Hn).
  destruct (fetch_world api2 self2
              (exec (fetch api1 self1) w)) as (s2 & r2 & n2 & H2 & _ & _).
  exists s1, s2, n. rewrite H2, H1. cbn [sessions].
  split; [done|]. split; [by rewrite <- app_assoc|]. split; [done|].
  by apply fetch_result_depends_on.
Qed.

End FetchExtras.

Section FetchRecord.

Variable strptime_timestamp : string -> option Q.

Abbreviation fetch := (get_weather_packet strptime_timestamp).
Abbreviation past := (all_past strptime_timestamp).
Abbreviation future := (in_future strptime_timestamp).

(** The record that a fetch returns after a refresh that went through has
    every output name of the field map, no other key but "rainRate", and
    no key twice. *)
Theorem fetch_record_keys (api : upstream) (self : RMIDataFetcher)
    (w : world) (packet : pydict value) :
  refresh api (latitude self) (longitude self) = Return tt ->
  close api = Return tt ->
  run (fetch api self) w = Return packet ->
  (forall k, In k (dict_keys (field_map_of self w)) -> In k (dict_keys packet)) /\
  (forall k, In k (dict_keys packet) ->
             k = "rainRate" \/ In k (dict_keys (field_map_of self w))) /\
  dict_wf packet.
Proof.
  intros Hrefresh Hclose Hrun. unfold run in Hrun.
  rewrite fetch_connected in Hrun by done.
  destruct (first_forecast (radar_forecast api)) as [prev|e]; [|discriminate].
  apply scan_forecasts_result in Hrun as [-> | [rate ->]].
  - split; [|split].
    + intros k Hk. by apply map_fields_keys.
    + intros k Hk. right. by apply map_fields_keys in Hk.
    + apply map_fields_wf.
  - split; [|split].
    + intros k Hk. apply dict_keys_set. right. by apply map_fields_keys.
    + intros k Hk. apply dict_keys_set in Hk as [-> | Hk]; [by left|].
      right. by apply map_fields_keys in Hk.
    + apply dict_set_wf, map_fields_wf.
Qed.

(** A rain rate is only ever derived from an entry in the future: when the
    field map has no output "rainRate" and the returned record has that
    key, some forecast entry was strictly after the clock reading made for
    it, every entry before it was in the past, and the rate is six times the
    value of the entry before it (of the entry itself when it is the
    first). *)
Theorem rain_rate_needs_future_entry (api : upstream) (self : RMIDataFetcher)
    (w : world) (packet : pydict value) (rate : value) :
  refresh api (latitude self) (longitude self) = Return tt ->
  close api = Return tt ->
  run (fetch api self) w = Return packet ->
  dict_get (field_map_of self w) "rainRate" = None ->
  dict_get packet "rainRate" = Some rate ->
  exists (i : nat) (fut prev : pydict value),
    radar_forecast api !! i = Some fut /\
    future (clock w (ticks w + i)%nat) fut /\
    past (clock w) (ticks w) (take i (radar_forecast api)) /\
    radar_forecast api !! (i - 1)%nat = Some prev /\
    py_mul6 (value_get prev "native_precipitation") = Return rate.
Proof.
  intros Hrefresh Hclose Hrun Hmap Hrate. unfold run in Hrun.
  rewrite fetch_connected in Hrun by done.
  destruct (radar_forecast api) as [|first rest] eqn:Hforecasts;
    [discriminate|].
  cbn [first_forecast] in Hrun.
  assert (dict_get (map_fields (field_map_of self w) (current_weather api))
                   "rainRate" = None) as Hnone.
  { apply dict_get_None. rewrite map_fields_keys. by apply dict_get_None. }
  destruct (scan_forecasts_rate_origin strptime_timestamp _ _ _ _ _ rate
              Hrun Hnone Hrate) as (i & fut & Hi & Hfut & Hpast & Hmul).
  cbn [clock ticks connected] in Hfut, Hpast.
  exists i, fut. destruct i as [|j].
  { exists first. simpl in Hmul. by repeat split. }
  destruct ((first :: rest) !! j) as [prev|] eqn:Hprev.
  - exists prev. rewrite (last_take _ j first prev Hprev) in Hmul.
    replace (S j - 1)%nat with j by lia. by repeat split.
  - apply lookup_ge_None in Hprev. apply lookup_lt_Some in Hi. lia.
Qed.

End FetchRecord.

Lemma first_entry_in_future_gives_its_own_rate_witness :
  run (get_weather_packet iso_timestamp (upstream_ok sample_forecasts) brussels)
      (initial_world (frozen eleven_o_clock))
  = Return (dict_set
              (map_fields
                 (field_map_of brussels (initial_world (frozen eleven_o_clock)))
                 sample_weather)
              "rainRate" (VFloat (1 * 6)%float)).
Proof.
  apply (first_entry_in_future_gives_its_own_rate iso_timestamp
           (upstream_ok sample_forecasts) brussels
           (initial_world (frozen eleven_o_clock))
           (forecast_point "2025-01-01T12:00:00+01:00" 1%float)
           [ forecast_point "2025-01-01T12:10:00+01:00" 2%float;
             forecast_point "2025-01-01T12:20:00+01:00" 3%float ]
           1%float).
  - reflexivity.
  - reflexivity.
  - reflexivity.
  - eexists. split; [vm_compute; reflexivity | unfold Qlt; simpl; lia].
  - reflexivity.
Defined.

Lemma fetch_lets_BaseException_through_witness :
  run (get_weather_packet iso_timestamp upstream_cancelled brussels)
      (initial_world (frozen one_o_clock)) = Raise CancelledError /\
  log (exec (get_weather_packet iso_timestamp upstream_cancelled brussels)
            (initial_world (frozen one_o_clock)))
  = log (initial_world (frozen one_o_clock)) /\
  sessions (exec (get_weather_packet iso_timestamp upstream_cancelled brussels)
                 (initial_world (frozen one_o_clock)))
  = sessions (initial_world (frozen one_o_clock)) ++ [SessionOpen].
Proof.
  apply (fetch_lets_BaseException_through iso_timestamp upstream_cancelled
           brussels (initial_world (frozen one_o_clock)) CancelledError).
  - left. reflexivity.
  - reflexivity.
Defined.

Lemma fetch_raises_on_unreadable_timestamp_witness :
  run (get_weather_packet iso_timestamp (upstream_ok forecasts_without_time)
                          brussels)
      (initial_world (frozen quarter_past_noon)) = Raise TypeError /\
  run (get_weather_packet iso_timestamp (upstream_ok forecasts_odd_time)
                          brussels)
      (initial_world (frozen quarter_past_noon)) = Raise ValueError.
Proof.
  split.
  - apply (fetch_raises_on_unreadable_timestamp iso_timestamp
             (upstream_ok forecasts_without_time) brussels
             (initial_world (frozen quarter_past_noon))
             [forecast_point "2025-01-01T12:00:00+01:00" 1%float]
             [("native_precipitation", VFloat 2%float)]
             [forecast_point "2025-01-01T12:20:00+01:00" 3%float]).
    + reflexivity.
    + reflexivity.
    + reflexivity.
    + intros i forecast Hi.
      destruct i as [|i]; [sample_entry Hi | discriminate Hi].
    + reflexivity.
  - apply (fetch_raises_on_unreadable_timestamp iso_timestamp
             (upstream_ok forecasts_odd_time) brussels
             (initial_world (frozen quarter_past_noon))
             [forecast_point "2025-01-01T12:00:00+01:00" 1%float]
             (forecast_point "2025-01-01 12:10" 2%float)
             []) with (s := "2025-01-01 12:10").
    + reflexivity.
    + reflexivity.
    + reflexivity.
    + intros i forecast Hi.
      destruct i as [|i]; [sample_entry Hi | discriminate Hi].
    + reflexivity.
    + reflexivity.
Defined.

Lemma fetch_raises_on_missing_precipitation_witness :
  run (get_weather_packet iso_timestamp (upstream_ok forecasts_without_value)
                          brussels)
      (initial_world (frozen quarter_past_noon)) = Raise TypeError.
Proof.
  apply (fetch_raises_on_missing_precipitation iso_timestamp
           (upstream_ok forecasts_without_value) brussels
           (initial_world (frozen quarter_past_noon))
           []
           [("datetime", VStr "2025-01-01T12:10:00+01:00")]
           (forecast_point "2025-01-01T12:20:00+01:00" 3%float)
           []).
  - reflexivity.
  - reflexivity.
  - reflexivity.
  - intros i forecast Hi.
    destruct i as [|i]; [sample_entry Hi | discriminate Hi].
  - eexists. split; [vm_compute; reflexivity | unfold Qlt; simpl; lia].
  - reflexivity.
Defined.

Lemma fetch_record_keys_witness :
  (forall k,
      In k (dict_keys (field_map_of brussels
                         (initial_world (frozen quarter_past_noon)))) ->
      In k (dict_keys sample_record)) /\
  (forall k,
      In k (dict_keys sample_record) ->
      k = "rainRate" \/
      In k (dict_keys (field_map_of brussels
                         (initial_world (frozen quarter_past_noon))))) /\
  dict_wf sample_record.
Proof.
  apply (fetch_record_keys iso_timestamp (upstream_ok sample_forecasts)
           brussels (initial_world (frozen quarter_past_noon)) sample_record).
  - reflexivity.
  - reflexivity.
  - vm_compute. reflexivity.
Defined.

Lemma rain_rate_needs_future_entry_witness :
  exists (i : nat) (fut prev : pydict value),
    sample_forecasts !! i = Some fut /\
    in_future iso_timestamp (frozen quarter_past_noon (0 + i)%nat) fut /\
    all_past iso_timestamp (frozen quarter_past_noon) 0 (take i sample_forecasts) /\
    sample_forecasts !! (i - 1)%nat = Some prev /\
    py_mul6 (value_get prev "native_precipitation") = Return (VFloat 12%float).
Proof.
  apply (rain_rate_needs_future_entry iso_timestamp
           (upstream_ok sample_forecasts) brussels
           (initial_world (frozen quarter_past_noon)) sample_record
           (VFloat 12%float)).
  - reflexivity.
  - reflexivity.
  - vm_compute. reflexivity.
  - reflexivity.
  - reflexivity.
Defined.

(** ** Construction: the other ways through the constructors *)

Lemma with_station_location_latitude engine stn_dict :
  dict_get (with_station_location engine stn_dict) "latitude"
  = Some (cfg_get_default stn_dict "latitude" (CV (latitude_f engine))).
Proof.
  unfold with_station_location, cfg_get_default.
  rewrite dict_get_setdefault_other by discriminate.
  unfold dict_setdefault.
  destruct (dict_get stn_dict "latitude") eqn:E; [done|].
  apply dict_get_set_same.
Qed.

Lemma with_station_location_longitude engine stn_dict :
  dict_get (with_station_location engine stn_dict) "longitude"
  = Some (cfg_get_default stn_dict "longitude" (CV (longitude_f engine))).
Proof.
  unfold with_station_location. unfold dict_setdefault at 1.
  destruct (dict_get (dict_setdefault stn_dict "latitude" _) "longitude")
    eqn:E.
  - rewrite E. rewrite dict_get_setdefault_other in E by discriminate.
    unfold cfg_get_default. by rewrite E.
  - rewrite dict_get_set_same.
    rewrite dict_get_setdefault_other in E by discriminate.
    unfold cfg_get_default. by rewrite E.
Qed.

Section ConstructionExtras.

Variable float_of_string : string -> option float.

Abbreviation init := (RMIDataFetcher_init float_of_string).

(** Constructing a fetcher with a [field_map]: the fetcher holds that
    dictionary object, and the extensions are written into it. *)
Lemma init_with_field_map stn_dict w poll lat lon lm m ext :
  numbers_of float_of_string stn_dict poll lat lon ->
  dict_get stn_dict "field_map" = Some (CMap lm) ->
  heap w !! lm = Some m ->
  extends_by stn_dict w ext ->
  init stn_dict w =
    (Return (mkFetcher poll lat lon lm),
     mkWorld (<[lm := dict_update m ext]>
                (<[fresh (dom (heap w)) := []]> (heap w)))
             (sessions w)
             (log w ++ construction_log (mkFetcher poll lat lon lm))
             (clock w) (ticks w) (bindings w)).
Proof.
  intros (Hpoll & Hlat & Hlon) Hmap Hlm Hext.
  assert (fresh (dom (heap w)) <> lm) as Hfresh.
  { intros Heq. apply (is_fresh (dom (heap w))). rewrite Heq.
    by apply elem_of_dom_2 with m. }
  unfold RMIDataFetcher_init. unfold_monad. rewrite Hpoll, Hlat, Hlon.
  unfold alloc. unfold_monad. unfold cfg_get_default. rewrite !Hmap.
  rewrite dict_get_del_other by done.
  unfold update_method, read_map, write_map, log_emit. unfold_monad.
  destruct Hext as [[-> ->] | (lx & -> & Hlx)];
    cbn [heap sessions log clock ticks bindings]; unfold deref.
  - rewrite lookup_insert_ne by done. rewrite Hlm.
    rewrite lookup_insert_eq.
    unfold construction_log. cbn [poll_interval latitude longitude].
    by rewrite <- !app_assoc.
  - assert (fresh (dom (heap w)) <> lx) as Hlx'.
    { intros Heq. apply (is_fresh (dom (heap w))). rewrite Heq.
      by apply elem_of_dom_2 with ext. }
    rewrite !lookup_insert_ne by done. rewrite Hlm, Hlx.
    unfold construction_log. cbn [poll_interval latitude longitude].
    by rewrite <- !app_assoc.
Qed.

(** A fetcher constructed with its own [field_map] holds that dictionary
    object: the extensions are written into the caller's dictionary, and
    every other dictionary, the class-level default table among them, stays
    as it was. *)
Theorem explicit_field_map_spares_the_default (stn_dict : pydict cfg_value)
    (w : world) (poll lat lon : float) (lm : loc) (m ext : pydict string) :
  numbers_of float_of_string stn_dict poll lat lon ->
  dict_get stn_dict "field_map" = Some (CMap lm) ->
  heap w !! lm = Some m ->
  extends_by stn_dict w ext ->
  exists self,
    run (init stn_dict) w = Return self /\
    _obs_map self = lm /\
    field_map_of self (exec (init stn_dict) w) = dict_update m ext /\
    (forall l d, l <> lm -> heap w !! l = Some d ->
                 heap (exec (init stn_dict) w) !! l = Some d).
Proof.
  intros Hnum Hmap Hlm Hext.
  exists (mkFetcher poll lat lon lm). unfold run, exec, field_map_of, deref.
  rewrite (init_with_field_map stn_dict w poll lat lon lm m ext) by done.
  cbn [fst snd heap _obs_map]. rewrite lookup_insert_eq.
  split; [done|]. split; [done|]. split; [done|].
  intros l d Hne Hl. rewrite lookup_insert_ne by done.
  rewrite lookup_insert_ne; [done|].
  intros Heq. apply (is_fresh (dom (heap w))). rewrite Heq.
  by apply elem_of_dom_2 with d.
Qed.


(** Without a latitude or without a longitude the constructor raises before
    it touches anything; it is [TypeError], from [float(None)], when the
    numbers before the missing one can be converted. *)
Theorem construction_requires_location (stn_dict : pydict cfg_value)
    (w : world) :
  dict_get stn_dict "latitude" = None \/ dict_get stn_dict "longitude" = None ->
  exists e,
    init stn_dict w = (Raise e, w) /\
    (forall poll,
        cfg_float float_of_string
          (cfg_get_default stn_dict "poll_interval" (CV (VInt 60)))
        = Return poll ->
        dict_get stn_dict "latitude" = None \/
        (exists lat, cfg_float float_of_string (cfg_get stn_dict "latitude")
                     = Return lat) ->
        e = TypeError).
Proof.
  intros Hmissing. unfold RMIDataFetcher_init. unfold_monad.
  destruct (cfg_float float_of_string (cfg_get_default stn_dict "poll_interval" _))
    as [poll|e] eqn:Hpoll.
  - destruct (cfg_float float_of_string (cfg_get stn_dict "latitude"))
      as [lat|e] eqn:Hlat.
    + destruct Hmissing as [Hnone | Hnone].
      { unfold cfg_get in Hlat. rewrite Hnone in Hlat. discriminate Hlat. }
      unfold cfg_get at 1. rewrite Hnone. cbn [cfg_float py_float].
      exists TypeError. by split.
    + exists e. split; [done|]. intros _ _ [Hnone | [lat Hlat']].
      * unfold cfg_get in Hlat. rewrite Hnone in Hlat. simpl in Hlat.
        congruence.
      * congruence.
  - exists e. split; [done|]. intros poll' Hpoll'. congruence.
Qed.

(** A [field_map] that is a scalar and not [None] has no [update]:
    [AttributeError]. Extensions that are a non-empty string are not a
    sequence of pairs: [ValueError]. Any other scalar is not iterable:
    [TypeError]. *)
Theorem construction_rejects_scalar_maps (stn_dict : pydict cfg_value)
    (w : world) (poll lat lon : float) :
  numbers_of float_of_string stn_dict poll lat lon ->
  (forall v, dict_get stn_dict "field_map" = Some (CV v) -> v <> VNone ->
             run (init stn_dict) w = Raise AttributeError) /\
  (forall v, dict_get stn_dict "field_map" = None ->
             dict_get stn_dict "field_map_extensions" = Some (CV v) ->
             v <> VStr "" ->
             run (init stn_dict) w
             = Raise (match v with VStr _ => ValueError | _ => TypeError end)).
Proof.
  intros (Hpoll & Hlat & Hlon). split.
  - intros v Hmap Hv. unfold run, RMIDataFetcher_init. unfold_monad.
    rewrite Hpoll, Hlat, Hlon. unfold alloc. unfold_monad.
    unfold cfg_get_default. rewrite !Hmap. by destruct v.
  - intros v Hmap Hext Hv. unfold run, RMIDataFetcher_init. unfold_monad.
    rewrite Hpoll, Hlat, Hlon. unfold cfg_get_default at 1. rewrite Hmap.
    unfold alloc, default_field_map. unfold_monad. unfold cfg_get_default.
    rewrite dict_get_del_other by done. rewrite Hext.
    unfold update_method. unfold_monad.
    destruct v as [| b | z | f | s]; try done.
    destruct (String.eqb s "") eqn:E; [|done].
    apply String.eqb_eq in E. congruence.
Qed.

End ConstructionExtras.

(** ** The driver, its loader and the installer *)

Section Driver.

Variable float_of_string : string -> option float.

Abbreviation init := (RMIDataFetcher_init float_of_string).

Lemma extends_by_with_station_location engine stn_dict w ext :
  extends_by stn_dict w ext ->
  extends_by (with_station_location engine stn_dict) w ext.
Proof.
  unfold extends_by.
  by rewrite with_station_location_other by discriminate.
Qed.

(** The driver's constructor, when the section has no [field_map] *)
Lemma RMIDriver_init_run engine stn_dict w poll lat lon d0 ext :
  cfg_float float_of_string
    (cfg_get_default stn_dict "poll_interval" (CV (VInt 60))) = Return poll ->
  cfg_float float_of_string
    (cfg_get_default stn_dict "latitude" (CV (latitude_f engine))) = Return lat ->
  cfg_float float_of_string
    (cfg_get_default stn_dict "longitude" (CV (longitude_f engine))) = Return lon ->
  dict_get stn_dict "field_map" = None ->
  heap w !! DEFAULT_FIELD_MAP_loc = Some d0 ->
  extends_by stn_dict w ext ->
  RMIDriver_init float_of_string engine stn_dict w
  = (Return (mkDriver (mkFetcher poll lat lon DEFAULT_FIELD_MAP_loc)),
     mkWorld (<[DEFAULT_FIELD_MAP_loc := dict_update d0 ext]>
                (<[fresh (dom (heap w)) := []]> (heap w)))
             (sessions w)
             (log w ++ construction_log
                         (mkFetcher poll lat lon DEFAULT_FIELD_MAP_loc))
             (clock w) (ticks w) (bindings w)).
Proof.
  intros Hpoll Hlat Hlon Hmap Hdefault Hext.
  unfold RMIDriver_init. unfold mbind, M_bind, bind.
  rewrite (init_without_field_map float_of_string _ w poll lat lon d0 ext).
  - done.
  - unfold numbers_of, cfg_get, cfg_get_default.
    rewrite with_station_location_latitude, with_station_location_longitude.
    by rewrite with_station_location_other by discriminate.
  - by rewrite with_station_location_other by discriminate.
  - exact Hdefault.
  - by apply extends_by_with_station_location.
Qed.

(** [loader] needs the section of the driver, and builds the driver at the
    location that the section gives, or at the station's own location for a
    coordinate that the section leaves out; the polling interval is 60
    seconds unless the section gives one. *)
Theorem loader_builds_driver_at_configured_or_station_location
    (config_dict : pydict (pydict cfg_value)) (engine : Engine) (w : world) :
  (dict_get config_dict DRIVER_NAME = None ->
   loader float_of_string config_dict engine w = (Raise KeyError, w)) /\
  (forall stn_dict poll lat lon d0 ext,
      dict_get config_dict DRIVER_NAME = Some stn_dict ->
      cfg_float float_of_string
        (cfg_get_default stn_dict "poll_interval" (CV (VInt 60))) = Return poll ->
      cfg_float float_of_string
        (cfg_get_default stn_dict "latitude" (CV (latitude_f engine)))
      = Return lat ->
      cfg_float float_of_string
        (cfg_get_default stn_dict "longitude" (CV (longitude_f engine)))
      = Return lon ->
      dict_get stn_dict "field_map" = None ->
      heap w !! DEFAULT_FIELD_MAP_loc = Some d0 ->
      extends_by stn_dict w ext ->
      run (loader float_of_string config_dict engine) w
      = Return (mkDriver (mkFetcher poll lat lon DEFAULT_FIELD_MAP_loc))).
Proof.
  split.
  - intros Hnone. unfold loader. by rewrite Hnone.
  - intros stn_dict poll lat lon d0 ext Hsection Hpoll Hlat Hlon Hmap
           Hdefault Hext.
    unfold run, loader. rewrite Hsection.
    by rewrite (RMIDriver_init_run engine stn_dict w poll lat lon d0 ext).
Qed.

(** The configuration that the installer writes names the driver as the
    station type, and [loader] accepts it as it is: the driver polls every
    [float("60")] seconds at the station's location, with the default field
    map, which it leaves unchanged. *)
Theorem installed_configuration_loads (engine : Engine) (w : world)
    (poll lat lon : float) (d0 : pydict string) :
  float_of_string "60" = Some poll ->
  latitude_f engine = VFloat lat ->
  longitude_f engine = VFloat lon ->
  heap w !! DEFAULT_FIELD_MAP_loc = Some d0 ->
  (exists station,
      dict_get (Install.config Install.loader) "Station" = Some station /\
      dict_get station "station_type" = Some (CV (VStr DRIVER_NAME))) /\
  run (loader float_of_string (Install.config Install.loader) engine) w
  = Return (mkDriver (mkFetcher poll lat lon DEFAULT_FIELD_MAP_loc)) /\
  heap (exec (loader float_of_string (Install.config Install.loader) engine) w)
    !! DEFAULT_FIELD_MAP_loc = Some d0.
Proof.
  intros Hpoll Hlat Hlon Hdefault. split.
  { eexists. split; reflexivity. }
  unfold run, exec, loader. cbn [Install.config Install.loader
    Install.RMIInstaller dict_get DRIVER_NAME String.eqb Ascii.eqb Bool.eqb].
  rewrite (RMIDriver_init_run engine _ w poll lat lon d0 []).
  - cbn [fst snd heap]. by rewrite lookup_insert_eq.
  - cbn. by rewrite Hpoll.
  - cbn. by rewrite Hlat.
  - cbn. by rewrite Hlon.
  - reflexivity.
  - exact Hdefault.
  - left. by split.
Qed.

End Driver.

(** ** The service: defaults and failures *)

Section Service.

Variable float_of_string : string -> option float.

Abbreviation init := (RMIDataFetcher_init float_of_string).
Abbreviation service_init := (RMIService_init float_of_string).

(** A construction of the service that raises has bound no event. *)
Theorem failed_service_binds_nothing (engine : Engine)
    (config_dict : pydict (pydict cfg_value)) (w : world) (e : exn) :
  run (service_init engine config_dict) w = Raise e ->
  bindings (exec (service_init engine config_dict) w) = bindings w.
Proof.
  unfold run, exec.
  destruct (dict_get config_dict DRIVER_NAME) as [section|] eqn:Hsection.
  - destruct (init (with_station_location engine section) w)
      as [[fetcher|e'] w1] eqn:Hinit.
    + assert (bindings w1 = bindings w) as Hframe.
      { pose proof (init_bindings float_of_string
                      (with_station_location engine section) w) as H.
        unfold exec in H. by rewrite Hinit in H. }
      rewrite (service_init_after_fetcher _ _ _ _ _ _ _ Hsection Hinit).
      unfold cfg_truthy, read_map, bind_event, log_emit. unfold_monad.
      destruct (cfg_get_default section "enable" _) as [v|l];
        cbn [fst snd];
        repeat case_match; simplify_eq; cbn [fst snd bindings];
        intros Hrun; try discriminate Hrun; exact Hframe.
    + rewrite (service_init_fetcher_raises _ _ _ _ _ _ _ Hsection Hinit).
      intros _. pose proof (init_bindings float_of_string
                              (with_station_location engine section) w) as H.
      unfold exec in H. by rewrite Hinit in H.
  - unfold RMIService_init. by rewrite Hsection.
Qed.

(** A section that names neither a binding nor [enable] gives a service
    that is enabled and bound to new loop packets. *)
Theorem service_binds_loop_by_default (engine : Engine)
    (config_dict : pydict (pydict cfg_value)) (section : pydict cfg_value)
    (w w1 : world) (fetcher : RMIDataFetcher) :
  dict_get config_dict DRIVER_NAME = Some section ->
  dict_get section "binding" = None ->
  dict_get section "enable" = None ->
  init (with_station_location engine section) w = (Return fetcher, w1) ->
  run (service_init engine config_dict) w
  = Return (mkService fetcher (CV (VStr "loop")) (CV (VBool true))) /\
  bindings (exec (service_init engine config_dict) w)
  = bindings w ++ [(NEW_LOOP_PACKET, new_loop_packet)].
Proof.
  intros Hsection Hbinding Henable Hinit.
  assert (bindings w1 = bindings w) as Hframe.
  { pose proof (init_bindings float_of_string
                  (with_station_location engine section) w) as H.
    unfold exec in H. by rewrite Hinit in H. }
  unfold run, exec.
  rewrite (service_init_after_fetcher _ _ _ _ _ _ _ Hsection Hinit).
  unfold cfg_get_default. rewrite Hbinding, Henable.
  unfold bind_event. unfold_monad. simpl. by rewrite Hframe.
Qed.

(** [enable] given as a string switches the service off only when the
    string is empty: any other string, "false" too, is truthy, so the
    binding is checked and the event is bound. *)
Theorem enable_string_disables_only_when_empty (engine : Engine)
    (config_dict : pydict (pydict cfg_value)) (section : pydict cfg_value)
    (w w1 : world) (fetcher : RMIDataFetcher) (s : string) :
  dict_get config_dict DRIVER_NAME = Some section ->
  dict_get section "enable" = Some (CV (VStr s)) ->
  init (with_station_location engine section) w = (Return fetcher, w1) ->
  (s <> "" ->
   cfg_get_default section "binding" (CV (VStr "loop")) = CV (VStr "archive") ->
   bindings (exec (service_init engine config_dict) w)
   = bindings w ++ [(NEW_ARCHIVE_RECORD, new_archive_record)]) /\
  (s <> "" ->
   cfg_eq_str (cfg_get_default section "binding" (CV (VStr "loop"))) "loop"
   = false ->
   cfg_eq_str (cfg_get_default section "binding" (CV (VStr "loop"))) "archive"
   = false ->
   run (service_init engine config_dict) w = Raise ValueError) /\
  (s = "" ->
   run (service_init engine config_dict) w
   = Return (mkService fetcher
               (cfg_get_default section "binding" (CV (VStr "loop")))
               (CV (VStr ""))) /\
   bindings (exec (service_init engine config_dict) w) = bindings w).
Proof.
  intros Hsection Henable Hinit.
  assert (bindings w1 = bindings w) as Hframe.
  { pose proof (init_bindings float_of_string
                  (with_station_location engine section) w) as H.
    unfold exec in H. by rewrite Hinit in H. }
  unfold run, exec.
  rewrite (service_init_after_fetcher _ _ _ _ _ _ _ Hsection Hinit).
  assert (cfg_get_default section "enable" (CV (VBool true)) = CV (VStr s))
    as Hen by (unfold cfg_get_default; by rewrite Henable).
  rewrite !Hen.
  cbn [cfg_truthy truthy]. unfold bind_event, log_emit. unfold_monad.
  split; [|split].
  - intros Hs Hbinding. apply String.eqb_neq in Hs. rewrite Hs, Hbinding.
    simpl. by rewrite Hframe.
  - intros Hs Hloop Harchive. apply String.eqb_neq in Hs.
    by rewrite Hs, Hloop, Harchive.
  - intros ->. simpl. by rewrite Hframe.
Qed.

End Service.

(** ** The driver's loop *)

Lemma float_of_int_raises z e : float_of_int z = Raise e -> e = OverflowError.
Proof.
  unfold float_of_int.
  destruct (binary_normalize prec emax z 0 false); congruence.
Qed.

Lemma float_of_int_50 : float_of_int 50 = Return 50%float.
Proof. vm_compute. reflexivity. Qed.

Lemma float_of_int_100 : float_of_int 100 = Return 100%float.
Proof. vm_compute. reflexivity. Qed.

Section DriverLoop.

Variable float_of_string : string -> option float.
Variable strptime_timestamp : string -> option Q.

Abbreviation get_as_float := (_get_as_float float_of_string).
Abbreviation as_float := (coerced float_of_string).
Abbreviation coerce := (coerce_fields float_of_string).
Abbreviation step := (genLoopPackets_step float_of_string strptime_timestamp).

(** The coercion answers a float or [None]; the one exception that leaves it
    is the [OverflowError] of an [int] too large for a float. *)
Lemma coerced_shape x :
  (exists v, as_float x = Return v /\ (v = VNone \/ exists f, v = VFloat f)) \/
  (as_float x = Raise OverflowError /\ exists z, x = VInt z).
Proof.
  unfold coerced. destruct (truthy x) eqn:Htruthy.
  - destruct x as [| b | z | f | s]; simpl.
    + discriminate Htruthy.
    + left. eexists. split; [done|]. right. by eexists.
    + destruct (float_of_int z) as [f|e] eqn:Hz.
      * left. eexists. split; [done|]. right. by eexists.
      * apply float_of_int_raises in Hz as ->. right. split; [done|].
        by exists z.
    + left. eexists. split; [done|]. right. by eexists.
    + destruct (float_of_string s).
      * left. eexists. split; [done|]. right. by eexists.
      * left. eexists. split; [done|]. by left.
  - left. exists VNone. split; [done|]. by left.
Qed.

Lemma get_as_float_answers_float_or_None_aux data key w :
  (exists v, run (get_as_float data key) w = Return v /\
             (v = VNone \/ exists f, v = VFloat f)) \/
  (run (get_as_float data key) w = Raise OverflowError /\
   exists z, dict_get data key = Some (VInt z)).
Proof.
  rewrite get_as_float_run.
  destruct (dict_get data key) as [x|].
  - destruct (coerced_shape x) as [Hok | [Hraise [z ->]]];
      [by left | right; split; [done | by exists z]].
  - left. exists VNone. split; [done|]. by left.
Qed.


(** The cloud cover of a sunny or clear sky does not reach the packet: the
    bucket 0 is falsy, so the coercion turns it into [None]; the buckets 50
    and 100 come out as floats. *)
Theorem clear_sky_cloud_cover_is_coerced_to_None (obs_map : pydict string)
    (weather : pydict value) (weewx_field : string) (w : world) :
  dict_wf obs_map ->
  In (weewx_field, "condition") obs_map ->
  run (get_as_float (map_fields obs_map weather) weewx_field) w
  = Return (if py_in (value_get weather "condition") ["sunny"; "clear-night"]
            then VNone
            else if py_in (value_get weather "condition") ["cloudy"]
                 then VFloat 50%float
                 else VFloat 100%float).
Proof.
  intros Hwf Hin. rewrite get_as_float_run.
  rewrite (map_fields_stored weather obs_map _ _ Hwf Hin).
  cbn [String.eqb Ascii.eqb Bool.eqb]. unfold get_cloud_cover.
  destruct (py_in _ ["sunny"; "clear-night"]); [done|].
  destruct (py_in _ ["cloudy"]); unfold coerced; cbn [truthy Z.eqb negb py_float].
  - by rewrite float_of_int_50.
  - by rewrite float_of_int_100.
Qed.

(** The loop over the fetched data raises nothing but [OverflowError]. *)
Lemma coerce_fields_raises data vnames :
  forall _packet w e,
    run (coerce data vnames _packet) w = Raise e -> e = OverflowError.
Proof.
  induction vnames as [|vname vnames IH]; intros _packet w e.
  - discriminate.
  - unfold run. cbn [coerce_fields]. unfold mbind, M_bind, bind.
    pose proof (get_as_float_answers_float_or_None_aux data vname w) as Hshape.
    unfold run in Hshape.
    destruct (get_as_float data vname w) as [[x|e'] w1]; cbn [fst] in Hshape.
    + apply IH.
    + simpl. intros [= <-].
      destruct Hshape as [(v & Hv & _) | [Hraise _]]; congruence.
Qed.

(** When the fetch raises an [Exception], the loop logs it and yields a
    packet that holds the time stamp and the unit system and nothing else. *)
Theorem driver_survives_fetch_exception (api : upstream) (self : RMIDriver)
    (w w1 : world) (e : exn) :
  get_weather_packet strptime_timestamp api (driver_fetcher self) w
  = (Raise e, w1) ->
  is_Exception e = true ->
  run (step api self) w
  = Return [ ("dateTime", VInt (py_int_of_time (clock w1 (ticks w1))));
             ("usUnits", VInt METRIC) ] /\
  log (exec (step api self) w)
  = log w1 ++ [Log ERROR "read failed: %s" [ArgExn e]].
Proof.
  intros Hfetch He. unfold run, exec, genLoopPackets_step, try_except_Exception.
  unfold mbind, M_bind, bind. rewrite Hfetch, He.
  unfold log_emit, time_time, mret, M_ret, ret. by cbn.
Qed.

Lemma float_of_int_0 : float_of_int 0 = Return 0%float.
Proof. vm_compute. reflexivity. Qed.

(** The coercion of an [int] raises exactly when the [int] is too large. *)
Lemma coerced_int_raises z e :
  as_float (VInt z) = Raise e ->
  float_of_int z = Raise OverflowError /\ e = OverflowError.
Proof.
  unfold coerced. cbn [truthy py_float].
  destruct (negb (z =? 0)); [|discriminate].
  destruct (float_of_int z) as [f|e'] eqn:Hz; [discriminate|].
  apply float_of_int_raises in Hz as ->. cbn. by intros [= <-].
Qed.

Lemma coerced_overflow z :
  float_of_int z = Raise OverflowError ->
  as_float (VInt z) = Raise OverflowError.
Proof.
  intros Hz. unfold coerced. cbn [truthy py_float].
  destruct (z =? 0) eqn:E.
  - apply Z.eqb_eq in E as ->. rewrite float_of_int_0 in Hz. discriminate Hz.
  - cbn. by rewrite Hz.
Qed.

(** The loop over the fetched data raises only at a field that holds an
    [int] too large for a float. *)
Lemma coerce_fields_raises_inv data vnames :
  forall _packet w e,
    run (coerce data vnames _packet) w = Raise e ->
    e = OverflowError /\
    exists vname z,
      In vname vnames /\ dict_get data vname = Some (VInt z) /\
      float_of_int z = Raise OverflowError.
Proof.
  induction vnames as [|vname vnames IH]; intros _packet w e.
  - discriminate.
  - unfold run. cbn [coerce_fields]. unfold mbind, M_bind, bind.
    pose proof (get_as_float_run float_of_string data vname w) as Hrun.
    unfold run in Hrun.
    destruct (get_as_float data vname w) as [[x|e'] w1]; cbn [fst] in Hrun.
    + intros Hrest. destruct (IH _ _ _ Hrest) as (He & k & z & Hk & Hget & Hz).
      split; [done|]. exists k, z. split; [by right | done].
    + cbn. intros [= <-].
      destruct (dict_get data vname) as [x|] eqn:Hget; [|discriminate].
      destruct (coerced_shape x) as [(v & Hv & _) | [_ [z ->]]]; [congruence|].
      symmetry in Hrun. apply coerced_int_raises in Hrun as [Hz ->].
      split; [done|]. exists vname, z. split; [by left | done].
Qed.

(** And it does raise when there is such a field. *)
Lemma coerce_fields_overflows data vnames :
  forall vname z _packet w,
    In vname vnames -> dict_get data vname = Some (VInt z) ->
    float_of_int z = Raise OverflowError ->
    run (coerce data vnames _packet) w = Raise OverflowError.
Proof.
  induction vnames as [|k vnames IH]; intros vname z _packet w Hin Hget Hz;
    [destruct Hin|].
  unfold run. cbn [coerce_fields]. unfold mbind, M_bind, bind.
  pose proof (get_as_float_run float_of_string data k w) as Hrun.
  pose proof (get_as_float_answers_float_or_None_aux data k w) as Hshape.
  unfold run in Hrun, Hshape.
  destruct (get_as_float data k w) as [[x|e'] w1]; cbn [fst] in Hrun, Hshape.
  - destruct Hin as [-> | Hin].
    + rewrite Hget, (coerced_overflow z Hz) in Hrun. discriminate Hrun.
    + by apply (IH vname z).
  - cbn. destruct Hshape as [(v & Hv & _) | [Hraise _]]; congruence.
Qed.

(** One turn of the loop raises in exactly two cases: the fetch raised
    something that is not an [Exception], which goes through as it is; or
    the fetch returned a record with an [int] too large for a float, and the
    coercion raises [OverflowError]. In every other case the turn yields a
    packet. *)
Theorem driver_turn_fails_exactly_when (api : upstream) (self : RMIDriver)
    (w : world) (e : exn) :
  run (step api self) w = Raise e <->
  (run (get_weather_packet strptime_timestamp api (driver_fetcher self)) w
   = Raise e /\ is_Exception e = false) \/
  (e = OverflowError /\
   exists data vname z,
     run (get_weather_packet strptime_timestamp api (driver_fetcher self)) w
     = Return data /\
     dict_get data vname = Some (VInt z) /\
     float_of_int z = Raise OverflowError).
Proof.
  unfold run at 1 2 3. unfold genLoopPackets_step, try_except_Exception.
  unfold mbind, M_bind, bind.
  destruct (get_weather_packet strptime_timestamp api (driver_fetcher self) w)
    as [[data|e'] w1]; cbn [fst].
  - unfold time_time. split.
    + intros Hrun. right.
      destruct (coerce_fields_raises_inv _ _ _ _ _ Hrun)
        as (-> & vname & z & _ & Hget & Hz).
      split; [done|]. by exists data, vname, z.
    + intros [[Hraise _] | (-> & data' & vname & z & [= <-] & Hget & Hz)];
        [discriminate Hraise|].
      apply (coerce_fields_overflows data (dict_keys data) vname z);
        [by apply (dict_get_Some_key _ _ _ Hget) | done | done].
  - destruct (is_Exception e') eqn:He'.
    + unfold log_emit, mret, M_ret, ret. cbn. split; [discriminate|].
      intros [[[= <-] He] | (_ & data & vname & z & Hret & _)];
        [congruence | discriminate Hret].
    + cbn. split.
      * intros [= <-]. by left.
      * intros [[Hraise _] | (_ & data & vname & z & Hret & _)];
          [done | discriminate Hret].
Qed.

(** In the packet that a turn yields, every fetched field is a float or
    [None], and the time stamp and the unit system are the loop's own unless
    the fetched record has a field of that name. *)
Theorem driver_packet_holds_floats (api : upstream) (self : RMIDriver)
    (w w1 : world) (data packet : pydict value) :
  get_weather_packet strptime_timestamp api (driver_fetcher self) w
  = (Return data, w1) ->
  run (step api self) w = Return packet ->
  (forall vname, In vname (dict_keys data) ->
     exists v, dict_get packet vname = Some v /\
               (v = VNone \/ exists f, v = VFloat f)) /\
  (~ In "dateTime" (dict_keys data) ->
   dict_get packet "dateTime"
   = Some (VInt (py_int_of_time (clock w1 (ticks w1))))) /\
  (~ In "usUnits" (dict_keys data) ->
   dict_get packet "usUnits" = Some (VInt METRIC)).
Proof.
  intros Hfetch Hrun. unfold run, genLoopPackets_step, try_except_Exception in Hrun.
  unfold mbind, M_bind, bind in Hrun. rewrite Hfetch in Hrun.
  unfold time_time in Hrun.
  apply (coerce_fields_entries float_of_string strptime_timestamp) in Hrun
    as [Hin Hout].
  split; [|split].
  - intros vname Hvname. destruct (Hin vname Hvname) as (v & Hv & Hget).
    exists v. split; [done|].
    destruct (get_as_float_answers_float_or_None_aux data vname w)
      as [(v' & Hv' & Hshape) | [Hraise _]];
      rewrite get_as_float_run in *.
    + assert (v = v') as -> by congruence. exact Hshape.
    + congruence.
  - intros Hno. by rewrite (Hout _ Hno).
  - intros Hno. by rewrite (Hout _ Hno).
Qed.

End DriverLoop.

(** ** The callbacks of the service *)

Section Callbacks.

Variable float_of_string : string -> option float.
Variable strptime_timestamp : string -> option Q.
Variable StdUnitConverters :
  value -> option (pydict value -> outcome (pydict value)).

Abbreviation fetch := (get_weather_packet strptime_timestamp).
Abbreviation call :=
  (dispatch float_of_string strptime_timestamp StdUnitConverters).
Abbreviation update := (update_event_packet float_of_string).
Abbreviation coerce := (coerce_fields float_of_string).
Abbreviation as_float := (coerced float_of_string).

(** The two callbacks are the same code. *)
Lemma dispatch_same cb api self h :
  call cb api self h
  = RMIService_new_loop_packet float_of_string strptime_timestamp
      StdUnitConverters api self h.
Proof. by destruct cb. Qed.

(** The update of the event's packet, when no conversion raises, is the
    loop of the driver run on that packet. *)
Lemma update_event_packet_returns converted vnames :
  forall h p w',
    coerce converted vnames (event_packet h) (host_world h) = (Return p, w') ->
    update converted vnames h = (Return tt, mkHost w' (printed h) p).
Proof.
  induction vnames as [|vname vnames IH]; intros h p w'.
  - simpl. unfold_monad. intros [= <- <-]. unfold io_ret. by destruct h.
  - cbn [coerce_fields update_event_packet].
    unfold mbind, M_bind, bind, io_bind, io_lift, event_packet_set.
    destruct (_get_as_float float_of_string converted vname (host_world h))
      as [[x|e] w1]; [|discriminate].
    intros Hrest. by rewrite (IH _ p w').
Qed.

(** A callback has no try block: whatever the fetch raises leaves the
    callback and reaches the host, before anything is printed or written to
    the event's packet. An empty forecast is such a case: the callback
    raises [IndexError]. *)
Theorem callback_lets_fetch_exception_through (cb : callback)
    (api : upstream) (self : RMIService) (h : host) :
  (forall e w1,
      fetch api (service_fetcher self) (host_world h) = (Raise e, w1) ->
      call cb api self h = (Raise e, mkHost w1 (printed h) (event_packet h))) /\
  (refresh api (latitude (service_fetcher self)) (longitude (service_fetcher self))
   = Return tt ->
   close api = Return tt ->
   radar_forecast api = [] ->
   call cb api self h
   = (Raise IndexError,
      mkHost (connected (host_world h)) (printed h) (event_packet h))).
Proof.
  assert (forall e w1,
            fetch api (service_fetcher self) (host_world h) = (Raise e, w1) ->
            call cb api self h
            = (Raise e, mkHost w1 (printed h) (event_packet h))) as Hraise.
  { intros e w1 Hfetch. rewrite dispatch_same.
    unfold RMIService_new_loop_packet, io_bind, io_lift.
    by rewrite Hfetch. }
  split; [exact Hraise|].
  intros Hrefresh Hclose Hempty. apply Hraise.
  by apply fetch_empty_forecast.
Qed.

(** A callback needs the unit system of the event's packet: when the packet
    has no "usUnits", or the host has no converter for its value, the
    callback raises [KeyError] after it has printed the fetched data, and
    the packet is left as it was. *)
Theorem callback_needs_known_unit_system (cb : callback) (api : upstream)
    (self : RMIService) (h : host) (data : pydict value) (w1 : world) :
  fetch api (service_fetcher self) (host_world h) = (Return data, w1) ->
  dict_get (event_packet h) "usUnits" = None \/
  (exists us, dict_get (event_packet h) "usUnits" = Some us /\
              StdUnitConverters us = None) ->
  call cb api self h
  = (Raise KeyError,
     mkHost w1 (printed h ++ [dict_set data "usUnits" (VInt METRIC)])
            (event_packet h)).
Proof.
  intros Hfetch Hunits. rewrite dispatch_same.
  unfold RMIService_new_loop_packet, io_bind, io_lift, print,
    event_packet_index.
  rewrite Hfetch. cbn [host_world printed event_packet].
  destruct Hunits as [-> | (us & -> & ->)]; reflexivity.
Qed.

(** A callback that goes through prints the fetched data with the unit
    system added, and writes every field of the converted data into the
    event's packet, coerced to a float: a field the packet had before is
    overwritten, with [None] when the converted value is falsy; a field that
    the converted data does not have is left as it was. *)
Theorem callback_writes_converted_fields (cb : callback) (api : upstream)
    (self : RMIService) (h : host) (data converted : pydict value)
    (w1 : world) (us : value)
    (convertDict : pydict value -> outcome (pydict value)) :
  fetch api (service_fetcher self) (host_world h) = (Return data, w1) ->
  dict_get (event_packet h) "usUnits" = Some us ->
  StdUnitConverters us = Some convertDict ->
  convertDict (dict_set data "usUnits" (VInt METRIC)) = Return converted ->
  (forall k x, dict_get converted k = Some x ->
               exists v, as_float x = Return v) ->
  exists h',
    call cb api self h = (Return tt, h') /\
    printed h' = printed h ++ [dict_set data "usUnits" (VInt METRIC)] /\
    (forall k, ~ In k (dict_keys converted) ->
               dict_get (event_packet h') k = dict_get (event_packet h) k) /\
    (forall k x, dict_get converted k = Some x ->
                 exists v, as_float x = Return v /\
                           dict_get (event_packet h') k = Some v) /\
    (forall k x, dict_get converted k = Some x -> truthy x = false ->
                 dict_get (event_packet h') k = Some VNone).
Proof.
  intros Hfetch Hus Hconv Hconverted Hsafe.
  set (h1 := mkHost w1 (printed h ++ [dict_set data "usUnits" (VInt METRIC)])
                    (event_packet h)).
  destruct (coerce converted (dict_keys converted) (event_packet h1)
              (host_world h1)) as [[p|e] w2] eqn:Hcoerce.
  - assert (forall k x, dict_get converted k = Some x ->
              exists v, as_float x = Return v /\ dict_get p k = Some v)
      as Hentries.
    { intros k x Hk.
      destruct (coerce_fields_entries float_of_string strptime_timestamp
                  converted (dict_keys converted) (event_packet h1)
                  (host_world h1) p) as [Hin _].
      { unfold run. by rewrite Hcoerce. }
      destruct (Hin k (dict_get_Some_key _ _ _ Hk)) as (v & Hv & Hget).
      rewrite get_as_float_run, Hk in Hv. by exists v. }
    exists (mkHost w2 (printed h1) p). split; [|split; [|split; [|split]]].
    + rewrite dispatch_same.
      unfold RMIService_new_loop_packet, io_bind, io_lift, print,
        event_packet_index.
      rewrite Hfetch. cbn [host_world printed event_packet].
      rewrite Hus, Hconv, Hconverted.
      by apply update_event_packet_returns.
    + done.
    + intros k Hk. cbn [event_packet].
      destruct (coerce_fields_entries float_of_string strptime_timestamp
                  converted (dict_keys converted) (event_packet h1)
                  (host_world h1) p) as [_ Hout].
      { unfold run. by rewrite Hcoerce. }
      by rewrite (Hout k Hk).
    + intros k x Hk. cbn [event_packet]. by apply Hentries.
    + intros k x Hk Hfalsy. cbn [event_packet].
      destruct (Hentries k x Hk) as (v & Hv & ->).
      unfold coerced in Hv. rewrite Hfalsy in Hv. congruence.
  - exfalso.
    destruct (coerce_fields_returns float_of_string
                converted (dict_keys converted)) with
      (_packet := event_packet h1) (w := host_world h1) as [packet Hpacket].
    { intros vname x _ Hx. by apply (Hsafe vname). }
    unfold run in Hpacket. rewrite Hcoerce in Hpacket. discriminate Hpacket.
Qed.

End Callbacks.

(** ** The new properties at concrete inputs *)

Lemma explicit_field_map_spares_the_default_witness :
  exists self,
    run (RMIDataFetcher_init decimal_float own_map_args) world_with_extension
    = Return self /\
    _obs_map self = extension_loc /\
    field_map_of self
      (exec (RMIDataFetcher_init decimal_float own_map_args)
            world_with_extension)
    = dict_update extension [] /\
    (forall l d, l <> extension_loc -> heap world_with_extension !! l = Some d ->
       heap (exec (RMIDataFetcher_init decimal_float own_map_args)
                  world_with_extension) !! l = Some d).
Proof.
  apply (explicit_field_map_spares_the_default decimal_float own_map_args
           world_with_extension 60%float 50.75%float 4.5%float
           extension_loc extension []).
  - repeat split; vm_compute; reflexivity.
  - reflexivity.
  - reflexivity.
  - left. split; reflexivity.
Defined.


Lemma construction_requires_location_witness :
  exists e,
    RMIDataFetcher_init decimal_float args_without_latitude world_with_extension
    = (Raise e, world_with_extension) /\
    (forall poll,
        cfg_float decimal_float
          (cfg_get_default args_without_latitude "poll_interval" (CV (VInt 60)))
        = Return poll ->
        dict_get args_without_latitude "latitude" = None \/
        (exists lat, cfg_float decimal_float
                       (cfg_get args_without_latitude "latitude")
                     = Return lat) ->
        e = TypeError).
Proof.
  apply (construction_requires_location decimal_float args_without_latitude
           world_with_extension).
  left. reflexivity.
Defined.

Lemma construction_rejects_scalar_maps_witness :
  run (RMIDataFetcher_init decimal_float scalar_map_args) world_with_extension
  = Raise AttributeError /\
  run (RMIDataFetcher_init decimal_float scalar_extension_args)
      world_with_extension
  = Raise ValueError.
Proof.
  split.
  - apply (construction_rejects_scalar_maps decimal_float scalar_map_args
             world_with_extension 60%float 50.75%float 4.5%float)
      with (v := VStr "outTemp").
    + repeat split; vm_compute; reflexivity.
    + reflexivity.
    + discriminate.
  - apply (construction_rejects_scalar_maps decimal_float scalar_extension_args
             world_with_extension 60%float 50.75%float 4.5%float)
      with (v := VStr "UV").
    + repeat split; vm_compute; reflexivity.
    + reflexivity.
    + reflexivity.
    + discriminate.
Defined.

Lemma loader_builds_driver_at_configured_or_station_location_witness :
  loader decimal_float [] station (initial_world (frozen one_o_clock))
  = (Raise KeyError, initial_world (frozen one_o_clock)) /\
  run (loader decimal_float config_plain station)
      (initial_world (frozen one_o_clock))
  = Return (mkDriver (mkFetcher 30%float 50.75%float 4.5%float
                                DEFAULT_FIELD_MAP_loc)).
Proof.
  split.
  { by apply (loader_builds_driver_at_configured_or_station_location
                decimal_float [] station (initial_world (frozen one_o_clock))). }
  apply (loader_builds_driver_at_configured_or_station_location decimal_float
           config_plain station (initial_world (frozen one_o_clock)))
    with (stn_dict := [("poll_interval", CV (VStr "30"))])
         (d0 := DEFAULT_FIELD_MAP) (ext := []).
  - reflexivity.
  - vm_compute. reflexivity.
  - reflexivity.
  - reflexivity.
  - reflexivity.
  - reflexivity.
  - left. split; reflexivity.
Defined.

Lemma installed_configuration_loads_witness :
  run (loader decimal_float (Install.config Install.loader) station)
      (initial_world (frozen one_o_clock))
  = Return (mkDriver brussels).
Proof.
  apply (installed_configuration_loads decimal_float station
           (initial_world (frozen one_o_clock))
           60%float 50.75%float 4.5%float DEFAULT_FIELD_MAP).
  - vm_compute. reflexivity.
  - reflexivity.
  - reflexivity.
  - reflexivity.
Defined.

Lemma failed_service_binds_nothing_witness :
  bindings (exec (RMIService_init decimal_float station config_unknown)
                 (initial_world (frozen one_o_clock)))
  = bindings (initial_world (frozen one_o_clock)).
Proof.
  apply (failed_service_binds_nothing decimal_float station config_unknown
           (initial_world (frozen one_o_clock)) ValueError).
  vm_compute. reflexivity.
Defined.

Lemma service_binds_loop_by_default_witness :
  run (RMIService_init decimal_float station config_plain)
      (initial_world (frozen one_o_clock))
  = Return (mkService (mkFetcher 30%float 50.75%float 4.5%float
                                 DEFAULT_FIELD_MAP_loc)
                      (CV (VStr "loop")) (CV (VBool true))) /\
  bindings (exec (RMIService_init decimal_float station config_plain)
                 (initial_world (frozen one_o_clock)))
  = bindings (initial_world (frozen one_o_clock))
    ++ [(NEW_LOOP_PACKET, new_loop_packet)].
Proof.
  apply (service_binds_loop_by_default decimal_float station config_plain
           [("poll_interval", CV (VStr "30"))]
           (initial_world (frozen one_o_clock))
           (exec (RMIDataFetcher_init decimal_float
                    (with_station_location station
                       [("poll_interval", CV (VStr "30"))]))
                 (initial_world (frozen one_o_clock)))).
  - reflexivity.
  - reflexivity.
  - reflexivity.
  - vm_compute. reflexivity.
Defined.

Lemma enable_string_disables_only_when_empty_witness :
  bindings (exec (RMIService_init decimal_float station config_enable_false)
                 (initial_world (frozen one_o_clock)))
  = bindings (initial_world (frozen one_o_clock))
    ++ [(NEW_ARCHIVE_RECORD, new_archive_record)].
Proof.
  apply (enable_string_disables_only_when_empty decimal_float station
           config_enable_false
           [("binding", CV (VStr "archive")); ("enable", CV (VStr "false"))]
           (initial_world (frozen one_o_clock))
           (exec (RMIDataFetcher_init decimal_float
                    (with_station_location station
                       [("binding", CV (VStr "archive"));
                        ("enable", CV (VStr "false"))]))
                 (initial_world (frozen one_o_clock)))
           brussels "false").
  - reflexivity.
  - reflexivity.
  - vm_compute. reflexivity.
  - discriminate.
  - reflexivity.
Defined.

Lemma clear_sky_cloud_cover_is_coerced_to_None_witness :
  run (_get_as_float decimal_float
         (map_fields DEFAULT_FIELD_MAP [("condition", VStr "sunny")])
         "cloudcover")
      (initial_world (frozen one_o_clock))
  = Return VNone.
Proof.
  apply (clear_sky_cloud_cover_is_coerced_to_None decimal_float
           DEFAULT_FIELD_MAP [("condition", VStr "sunny")] "cloudcover"
           (initial_world (frozen one_o_clock))).
  - exact DEFAULT_FIELD_MAP_wf.
  - simpl. tauto.
Defined.

Lemma driver_survives_fetch_exception_witness :
  run (genLoopPackets_step decimal_float iso_timestamp (upstream_ok [])
                           (mkDriver brussels))
      (initial_world (frozen one_o_clock))
  = Return [ ("dateTime",
              VInt (py_int_of_time
                      (clock (connected (initial_world (frozen one_o_clock)))
                             (ticks (connected
                                       (initial_world (frozen one_o_clock)))))));
             ("usUnits", VInt METRIC) ] /\
  log (exec (genLoopPackets_step decimal_float iso_timestamp (upstream_ok [])
                                 (mkDriver brussels))
            (initial_world (frozen one_o_clock)))
  = log (connected (initial_world (frozen one_o_clock)))
    ++ [Log ERROR "read failed: %s" [ArgExn IndexError]].
Proof.
  apply (driver_survives_fetch_exception decimal_float iso_timestamp
           (upstream_ok []) (mkDriver brussels)
           (initial_world (frozen one_o_clock))
           (connected (initial_world (frozen one_o_clock))) IndexError).
  - by apply fetch_empty_forecast.
  - reflexivity.
Defined.

Lemma driver_turn_fails_exactly_when_witness :
  run (genLoopPackets_step decimal_float iso_timestamp upstream_cancelled
                           (mkDriver brussels))
      (initial_world (frozen one_o_clock)) = Raise CancelledError /\
  run (genLoopPackets_step decimal_float iso_timestamp upstream_huge
                           (mkDriver brussels))
      (initial_world (frozen quarter_past_noon)) = Raise OverflowError.
Proof.
  split.
  - apply (driver_turn_fails_exactly_when decimal_float iso_timestamp
             upstream_cancelled (mkDriver brussels)
             (initial_world (frozen one_o_clock)) CancelledError).
    left. split; vm_compute; reflexivity.
  - apply (driver_turn_fails_exactly_when decimal_float iso_timestamp
             upstream_huge (mkDriver brussels)
             (initial_world (frozen quarter_past_noon)) OverflowError).
    right. split; [reflexivity|].
    eexists _, "barometer", (2 ^ 1024).
    split; [vm_compute; reflexivity|].
    split; vm_compute; reflexivity.
Defined.

Lemma driver_packet_holds_floats_witness :
  exists packet,
    run (genLoopPackets_step decimal_float iso_timestamp
           (upstream_ok sample_forecasts) (mkDriver brussels))
        (initial_world (frozen quarter_past_noon)) = Return packet /\
    (exists v, dict_get packet "cloudcover" = Some v /\
               (v = VNone \/ exists f, v = VFloat f)) /\
    dict_get packet "usUnits" = Some (VInt METRIC).
Proof.
  eexists. split; [vm_compute; reflexivity|].
  destruct (driver_packet_holds_floats decimal_float iso_timestamp
              (upstream_ok sample_forecasts) (mkDriver brussels)
              (initial_world (frozen quarter_past_noon))
              (exec (get_weather_packet iso_timestamp
                       (upstream_ok sample_forecasts) brussels)
                    (initial_world (frozen quarter_past_noon)))
              sample_record
              [ ("dateTime", VInt 1735730100); ("usUnits", VInt 16);
                ("barometer", VFloat 1013%float);
                ("outTemp", VFloat 21.5%float);
                ("windSpeed", VNone); ("windGust", VNone); ("windDir", VNone);
                ("cloudcover", VFloat 50%float);
                ("rainRate", VFloat 12%float) ])
    as (Hfloats & _ & Hunits).
  - vm_compute. reflexivity.
  - vm_compute. reflexivity.
  - split.
    + apply Hfloats. simpl. tauto.
    + apply Hunits. simpl. intros H. repeat destruct H as [H | H]; done.
Defined.

Lemma callback_lets_fetch_exception_through_witness :
  dispatch decimal_float iso_timestamp sample_converters new_archive_record
           (upstream_ok []) sample_service (sample_host (frozen one_o_clock))
  = (Raise IndexError,
     mkHost (connected (initial_world (frozen one_o_clock)))
            (printed (sample_host (frozen one_o_clock)))
            (event_packet (sample_host (frozen one_o_clock)))).
Proof.
  apply (callback_lets_fetch_exception_through decimal_float iso_timestamp
           sample_converters new_archive_record (upstream_ok [])
           sample_service (sample_host (frozen one_o_clock)));
    reflexivity.
Defined.

Lemma callback_needs_known_unit_system_witness :
  fst (dispatch decimal_float iso_timestamp sample_converters new_loop_packet
                (upstream_ok sample_forecasts) sample_service
                (host_without_units (frozen quarter_past_noon)))
  = Raise KeyError /\
  fst (dispatch decimal_float iso_timestamp sample_converters new_loop_packet
                (upstream_ok sample_forecasts) sample_service
                (host_with_unknown_units (frozen quarter_past_noon)))
  = Raise KeyError.
Proof.
  split.
  - rewrite (callback_needs_known_unit_system decimal_float iso_timestamp
               sample_converters new_loop_packet (upstream_ok sample_forecasts)
               sample_service (host_without_units (frozen quarter_past_noon))
               sample_record
               (exec (get_weather_packet iso_timestamp
                        (upstream_ok sample_forecasts) brussels)
                     (initial_world (frozen quarter_past_noon)))).
    + reflexivity.
    + vm_compute. reflexivity.
    + left. reflexivity.
  - rewrite (callback_needs_known_unit_system decimal_float iso_timestamp
               sample_converters new_loop_packet (upstream_ok sample_forecasts)
               sample_service
               (host_with_unknown_units (frozen quarter_past_noon))
               sample_record
               (exec (get_weather_packet iso_timestamp
                        (upstream_ok sample_forecasts) brussels)
                     (initial_world (frozen quarter_past_noon)))).
    + reflexivity.
    + vm_compute. reflexivity.
    + right. exists (VInt 2). split; reflexivity.
Defined.

Lemma callback_writes_converted_fields_witness :
  exists h',
    dispatch decimal_float iso_timestamp sample_converters new_loop_packet
             (upstream_ok sample_forecasts) sample_service
             (sample_host (frozen quarter_past_noon))
    = (Return tt, h') /\
    dict_get (event_packet h') "outTemp" = Some (VFloat 21.5%float) /\
    dict_get (event_packet h') "windSpeed" = Some VNone /\
    dict_get (event_packet h') "dateTime" = Some (VInt 1735730100).
Proof.
  destruct (callback_writes_converted_fields decimal_float iso_timestamp
              sample_converters new_loop_packet (upstream_ok sample_forecasts)
              sample_service (sample_host (frozen quarter_past_noon))
              sample_record
              (dict_set sample_record "usUnits" (VInt METRIC))
              (exec (get_weather_packet iso_timestamp
                       (upstream_ok sample_forecasts) brussels)
                    (initial_world (frozen quarter_past_noon)))
              (VInt 16) (fun data => Return data))
    as (h' & Hcall & _ & Hkept & Hwritten & Hnull).
  - vm_compute. reflexivity.
  - reflexivity.
  - reflexivity.
  - reflexivity.
  - intros k x Hk. cbn in Hk.
    repeat match type of Hk with
           | (if ?c then _ else _) = _ =>
               destruct c; [injection Hk as <-; eexists; reflexivity|]
           end.
    discriminate Hk.
  - exists h'. split; [exact Hcall|]. split; [|split].
    + destruct (Hwritten "outTemp" (VFloat 21.5%float) eq_refl)
        as (v & Hv & ->).
      vm_compute in Hv. congruence.
    + by apply (Hnull "windSpeed" (VFloat 0%float)).
    + rewrite Hkept; [reflexivity|].
      cbn. intros H. repeat destruct H as [H | H]; done.
Defined.

Lemma fetch_keeps_mapped_fields_witness :
  dict_get sample_record "outTemp"
  = dict_get (map_fields
                (field_map_of brussels (initial_world (frozen quarter_past_noon)))
                (current_weather (upstream_ok sample_forecasts)))
             "outTemp".
Proof.
  apply (fetch_keeps_mapped_fields iso_timestamp (upstream_ok sample_forecasts)
           brussels (initial_world (frozen quarter_past_noon)) sample_record
           "outTemp").
  - reflexivity.
  - reflexivity.
  - vm_compute. reflexivity.
  - discriminate.
Defined.

(** ** Field remapping, on the record that the fetch returns *)

Lemma holds_mapped_intro weather packet weewx_field rmi_field :
  dict_get packet weewx_field
  = Some (if String.eqb rmi_field "condition"
          then VInt (get_cloud_cover (value_get weather rmi_field))
          else value_get weather rmi_field) ->
  holds_mapped weather packet weewx_field rmi_field.
Proof.
  intros Hget. unfold holds_mapped. rewrite Hget. split; [|split].
  - intros ->. reflexivity.
  - intros Hne v Hv. apply String.eqb_neq in Hne. rewrite Hne.
    unfold value_get. by rewrite Hv.
  - intros Hne Hv. apply String.eqb_neq in Hne. rewrite Hne.
    unfold value_get. by rewrite Hv.
Qed.

Section FieldMapping.

Variable strptime_timestamp : string -> option Q.

Abbreviation fetch := (get_weather_packet strptime_timestamp).
Abbreviation past := (all_past strptime_timestamp).
Abbreviation future := (in_future strptime_timestamp).

(** C5, as the code has it: take a pair (output name, source name) of the
    fetcher's field map, and a fetch whose refresh went through. When the
    output name is not "rainRate", every record that the fetch returns
    holds under the output name the cloud-cover bucket of the current
    condition code if the source name is "condition", and otherwise the
    value of the source field of the current conditions as it is, [None]
    when the payload lacks the field. The mapping raises nothing, whatever
    the payload: the fetch returns such a record when the forecasts are not
    empty and all in the past (then for the output "rainRate" too), and
    when the scan finds a first entry in the future and derives a rate. An
    output named "rainRate" is overwritten by the derived rate. *)
Theorem fetch_maps_every_field_but_rain_rate (api : upstream)
    (self : RMIDataFetcher) (w : world) (weewx_field rmi_field : string) :
  refresh api (latitude self) (longitude self) = Return tt ->
  close api = Return tt ->
  dict_wf (field_map_of self w) ->
  In (weewx_field, rmi_field) (field_map_of self w) ->
  (weewx_field <> "rainRate" ->
   forall packet,
     run (fetch api self) w = Return packet ->
     holds_mapped (current_weather api) packet weewx_field rmi_field) /\
  (radar_forecast api <> [] ->
   past (clock w) (ticks w) (radar_forecast api) ->
   exists packet,
     run (fetch api self) w = Return packet /\
     holds_mapped (current_weather api) packet weewx_field rmi_field) /\
  (weewx_field <> "rainRate" ->
   forall before fut after rate,
     radar_forecast api = before ++ fut :: after ->
     past (clock w) (ticks w) before ->
     future (clock w (ticks w + length before)%nat) fut ->
     py_mul6 (value_get (List.last before fut) "native_precipitation")
     = Return rate ->
     exists packet,
       run (fetch api self) w = Return packet /\
       holds_mapped (current_weather api) packet weewx_field rmi_field).
Proof.
  intros Hrefresh Hclose Hwf Hin.
  pose proof (map_fields_stored (current_weather api) (field_map_of self w)
                weewx_field rmi_field Hwf Hin) as Hstored.
  split; [|split].
  - intros Hne packet Hrun. apply holds_mapped_intro.
    unfold run in Hrun. rewrite fetch_connected in Hrun by done.
    destruct (first_forecast (radar_forecast api)) as [prev|e];
      [|discriminate Hrun].
    apply scan_forecasts_result in Hrun as [-> | [rate ->]]; [exact Hstored|].
    rewrite dict_get_set_other by congruence. exact Hstored.
  - intros Hnonempty Hpast.
    exists (map_fields (field_map_of self w) (current_weather api)).
    split; [|by apply holds_mapped_intro].
    unfold run. rewrite fetch_connected by done.
    destruct (radar_forecast api) as [|first rest]; [done|].
    cbn [first_forecast]. by rewrite scan_forecasts_all_past.
  - intros Hne before fut after rate Hforecasts Hpast Hfut Hrate.
    exists (dict_set (map_fields (field_map_of self w) (current_weather api))
                     "rainRate" rate).
    split.
    + unfold run. rewrite fetch_connected by done. rewrite Hforecasts.
      destruct before as [|b before].
      * cbn [app first_forecast].
        rewrite (scan_forecasts_first_future strptime_timestamp [] fut after)
          by done.
        cbn [List.last fst]. cbn [List.last] in Hrate. by rewrite Hrate.
      * cbn [app first_forecast].
        change (b :: before ++ fut :: after)
          with ((b :: before) ++ fut :: after).
        rewrite (scan_forecasts_first_future strptime_timestamp (b :: before)
                   fut after) by done.
        rewrite last_cons in Hrate. rewrite last_cons. cbn [fst].
        by rewrite Hrate.
    + apply holds_mapped_intro.
      rewrite dict_get_set_other by congruence. exact Hstored.
Qed.

End FieldMapping.

Lemma fetch_maps_every_field_but_rain_rate_witness :
  exists packet,
    run (get_weather_packet iso_timestamp (upstream_ok sample_forecasts) brussels)
        (initial_world (frozen quarter_past_noon)) = Return packet /\
    dict_get packet "cloudcover" = Some (VInt 50).
Proof.
  destruct (fetch_maps_every_field_but_rain_rate iso_timestamp
              (upstream_ok sample_forecasts) brussels
              (initial_world (frozen quarter_past_noon))
              "cloudcover" "condition")
    as (_ & _ & Hfuture).
  - reflexivity.
  - reflexivity.
  - exact DEFAULT_FIELD_MAP_wf.
  - change (In ("cloudcover", "condition") DEFAULT_FIELD_MAP). simpl. tauto.
  - destruct (Hfuture ltac:(discriminate)
                [ forecast_point "2025-01-01T12:00:00+01:00" 1%float;
                  forecast_point "2025-01-01T12:10:00+01:00" 2%float ]
                (forecast_point "2025-01-01T12:20:00+01:00" 3%float)
                [] (VFloat 12%float))
      as (packet & Hrun & Hcloud & _).
    + reflexivity.
    + intros i forecast Hi.
      destruct i as [|[|i]]; [sample_entry Hi .. | discriminate Hi].
    + eexists. split; [vm_compute; reflexivity | unfold Qlt; simpl; lia].
    + reflexivity.
    + exists packet. split; [exact Hrun|]. by rewrite (Hcloud eq_refl).
Defined.

(** C5 fails as stated for an output named "rainRate": with the field map
    outTemp <- temperature, rainRate <- temperature and a temperature of
    21.5, the record that the fetch returns at 12:15 holds the derived rate
    12.0 under "rainRate", not the copied temperature. *)
Lemma rain_rate_overwrites_mapped_field :
  In ("rainRate", "temperature")
     (field_map_of brussels_with_own_map
                   (world_with_rain_named_map (frozen quarter_past_noon))) /\
  dict_get sample_weather "temperature" = Some (VFloat 21.5%float) /\
  exists packet,
    run (get_weather_packet iso_timestamp (upstream_ok sample_forecasts)
                            brussels_with_own_map)
        (world_with_rain_named_map (frozen quarter_past_noon))
    = Return packet /\
    dict_get packet "outTemp" = Some (VFloat 21.5%float) /\
    dict_get packet "rainRate" = Some (VFloat 12%float) /\
    ~ holds_mapped sample_weather packet "rainRate" "temperature".
Proof.
  split; [vm_compute; right; left; reflexivity|]. split; [reflexivity|].
  eexists. split; [vm_compute; reflexivity|].
  split; [reflexivity|]. split; [reflexivity|].
  intros (_ & Hcopy & _).
  specialize (Hcopy ltac:(discriminate) (VFloat 21.5%float) eq_refl).
  apply (f_equal (fun o => match o with
                           | Some (VFloat x) => PrimFloat.eqb x 12%float
                           | _ => false
                           end)) in Hcopy.
  vm_compute in Hcopy. discriminate Hcopy.
Qed.
